(** * The terminal WebSocket bridge (terminal server script)

    A shallow embedding of the server script that accepts WebSocket
    connections on [/terminal], spawns one shell under a pseudo-terminal per
    connection and relays messages in both directions.

    The script is event driven: every listener it registers
    ([wss.on('connection')], [terminal.onData], [terminal.onExit],
    [ws.on('message')], [ws.on('close')], [ws.on('error')],
    [process.on('SIGINT')] and the callback of [wss.close]) is a function
    from the state of the server to its next state.  The state holds the
    [terminals] map, one record per accepted connection, the listener, and
    the chronological list of calls the script made on its collaborators
    (node-pty, ws, console, process).

    Left out: the two start-up console lines and [server.listen], which run
    once before any event, and the 'uncaughtException' and
    'unhandledRejection' listeners, which only log (no listener of the model
    lets an exception escape). *)

From Stdlib Require Import ZArith String List Bool Lia.
From stdpp Require Import base numbers list strings.
Import ListNotations.
Local Open Scope string_scope.
Local Open Scope list_scope.
Local Open Scope Z_scope.
Set Warnings "-register-all".

(** ** JavaScript values *)

(** The values that cross the script: results of [JSON.parse], arguments of
    listeners, the object literals handed to [JSON.stringify].  Numbers are
    the integers the script meets (pid, exit code, columns, rows); the script
    does no arithmetic on them. *)
Inductive value : Type :=
| VUndefined
| VNull
| VBool (b : bool)
| VNum (n : Z)
| VStr (s : string)
| VArr (items : list value)
| VObj (fields : list (string * value)).

(** [JsMap]: a JavaScript [Map] with string keys, kept in insertion order
    (the order [forEach] visits).  [set] on a present key replaces the value
    in place, on an absent key appends; [delete] drops the key. *)
Module JsMap.
Section WithValues.
Context {V : Type}.

Fixpoint get (m : list (string * V)) (k : string) : option V :=
  match m with
  | [] => None
  | (k', v) :: rest => if String.eqb k' k then Some v else get rest k
  end.

Fixpoint set (m : list (string * V)) (k : string) (v : V) : list (string * V) :=
  match m with
  | [] => [(k, v)]
  | (k', v') :: rest =>
      if String.eqb k' k then (k, v) :: rest else (k', v') :: set rest k v
  end.

Fixpoint delete (m : list (string * V)) (k : string) : list (string * V) :=
  match m with
  | [] => []
  | (k', v') :: rest =>
      if String.eqb k' k then delete rest k else (k', v') :: delete rest k
  end.

Definition keys (m : list (string * V)) : list string := map fst m.
Definition has (m : list (string * V)) (k : string) : bool :=
  match get m k with Some _ => true | None => false end.
End WithValues.
End JsMap.

(** [v === 'literal'], the comparison a [switch] makes against a string
    literal. *)
Definition strict_eq_string (v : value) (literal : string) : bool :=
  match v with
  | VStr s => String.eqb s literal
  | _ => false
  end.

(** Property read [v.k] for the keys the script reads ([type], [data],
    [cols], [rows]).  [None] is the [TypeError] of reading a property of
    [null] or [undefined]; a primitive or an array has none of these
    properties, so the read gives [undefined].  An object that [JSON.parse]
    built has each key once. *)
Definition get_prop (v : value) (k : string) : option value :=
  match v with
  | VUndefined | VNull => None
  | VObj fields =>
      Some (match JsMap.get fields k with Some x => x | None => VUndefined end)
  | _ => Some VUndefined
  end.

(** [JSON.stringify], up to the text: the result is the JSON document the
    peer reads back.  A property whose value is [undefined] is left out, an
    [undefined] array element becomes [null]. *)
Fixpoint JSON_stringify (v : value) : value :=
  match v with
  | VArr items =>
      VArr (map (fun x => match x with
                          | VUndefined => VNull
                          | _ => JSON_stringify x
                          end) items)
  | VObj fields =>
      VObj ((fix props (fs : list (string * value)) : list (string * value) :=
               match fs with
               | [] => []
               | (k, VUndefined) :: rest => props rest
               | (k, x) :: rest => (k, JSON_stringify x) :: props rest
               end) fields)
  | _ => v
  end.

(** ** The host and the collaborators *)

(** What the script reads from its hosting process. *)
Record host : Type := Host {
  platform : string;                    (* os.platform() *)
  process_env : list (string * string); (* process.env *)
  process_cwd : string                  (* process.cwd() *)
}.

Definition PORT : Z := 8080.

(** [process.env.SHELL || '/bin/bash'] inside the platform test. *)
Definition select_shell (h : host) : string :=
  if String.eqb (platform h) "win32" then "powershell.exe"
  else match JsMap.get (process_env h) "SHELL" with
       | Some sh => if String.eqb sh "" then "/bin/bash" else sh
       | None => "/bin/bash"
       end.

(** The options object of [pty.spawn]. *)
Record spawn_options : Type := SpawnOptions {
  opt_name : string;
  opt_cols : Z;
  opt_rows : Z;
  opt_cwd : string;
  opt_env : list (string * string)
}.

Definition spawn_options_of (h : host) : spawn_options :=
  {| opt_name := "xterm-color";
     opt_cols := 80;
     opt_rows := 30;
     opt_cwd := process_cwd h;
     opt_env := JsMap.set (JsMap.set (process_env h) "TERM" "xterm-256color")
                          "COLORTERM" "truecolor" |}.

(** Outcome of [pty.spawn]: a terminal with its pid, or a thrown [Error]
    with its [message]. *)
Inductive spawn_result : Type :=
| SpawnOk (pid : Z)
| SpawnThrows (message : string).

(** [generateId]: [Math.random().toString(36).substr(2, 9)].  The random
    draw is given by its base-36 rendering (a text such as 0.4fzyo82mvyr);
    [substr(2, 9)] keeps at most nine characters from index 2 on. *)
Definition generateId (rnd36 : string) : string := String.substring 2 9 rnd36.

(** [ws.readyState]. *)
Inductive ready_state : Type := CONNECTING | OPEN | CLOSING | CLOSED.

Definition is_open (r : ready_state) : bool :=
  match r with OPEN => true | _ => false end.

(** The console lines of the script, one constructor per call site. *)
Inductive console_line : Type :=
| LogNewConnection
| LogSpawned (pid : Z) (shell : string)
| LogExit (code signal : value)
| LogResized (cols rows : value)
| WarnUnknownType (t : value)
| ErrorMessage
| ErrorSpawn (message : string)
| LogDisconnected
| ErrorWebSocket
| LogShuttingDown
| LogKilling (id : string)
| LogServerClosed.

(** Calls the script makes on its collaborators, in the order it makes
    them.  A terminal and the connection it was spawned for share one
    handle: the index of the connection. *)
Inductive call : Type :=
| Console (line : console_line)
| PtySpawn (h : nat) (file : string) (args : list string)
           (opts : spawn_options) (res : spawn_result)
| PtyWrite (h : nat) (data : value)
| PtyResize (h : nat) (cols rows : value)
| PtyKill (h : nat)
| WsSend (c : nat) (payload : value)
| WsClose (c : nat)
| WssClose
| ProcessExit (code : Z).

(** One accepted connection: the closure variables of the connection
    listener ([terminalId], and whether the [try] block obtained a
    [terminal] and registered its listeners), the [readyState] of [ws], and
    whether node-pty has reported the exit of the terminal. *)
Record conn : Type := Conn {
  terminalId : string;
  readyState : ready_state;
  spawned : bool;
  exited : bool
}.

Record state : Type := State {
  terminals : list (string * nat);  (* const terminals = new Map() *)
  conns : list conn;
  wss_closing : bool;               (* wss.close() was called *)
  wss_callbacks : nat;              (* callbacks waiting for the listener *)
  halted : option Z;                (* process.exit(code) was called *)
  calls : list call
}.

Definition init : state :=
  {| terminals := []; conns := []; wss_closing := false; wss_callbacks := 0%nat;
     halted := None; calls := [] |}.

(** ** Events *)

Inductive event : Type :=
| Connection (rnd36 : string) (req : value) (res : spawn_result)
| PeerClosing (c : nat)
| WsMessage (c : nat) (parsed : option value)
| WsClosed (c : nat)
| WsError (c : nat)
| PtyData (h : nat) (data : string)
| PtyExit (h : nat) (args : list value)
| Sigint
| WssClosed.

(** ** State updates *)

Definition emit (k : call) (s : state) : state :=
  {| terminals := terminals s; conns := conns s; wss_closing := wss_closing s;
     wss_callbacks := wss_callbacks s; halted := halted s;
     calls := calls s ++ [k] |}.

Definition console (line : console_line) (s : state) : state :=
  emit (Console line) s.

Definition set_terminals (m : list (string * nat)) (s : state) : state :=
  {| terminals := m; conns := conns s; wss_closing := wss_closing s;
     wss_callbacks := wss_callbacks s; halted := halted s; calls := calls s |}.

Definition set_conns (l : list conn) (s : state) : state :=
  {| terminals := terminals s; conns := l; wss_closing := wss_closing s;
     wss_callbacks := wss_callbacks s; halted := halted s; calls := calls s |}.

Definition set_readyState (r : ready_state) (k : conn) : conn :=
  {| terminalId := terminalId k; readyState := r; spawned := spawned k;
     exited := exited k |}.

Definition set_spawned (k : conn) : conn :=
  {| terminalId := terminalId k; readyState := readyState k; spawned := true;
     exited := exited k |}.

Definition set_exited (k : conn) : conn :=
  {| terminalId := terminalId k; readyState := readyState k;
     spawned := spawned k; exited := true |}.

Definition update_conn (c : nat) (f : conn -> conn) (s : state) : state :=
  set_conns (alter f c (conns s)) s.

(** [OPEN] becomes [CLOSING]; the other states stay. *)
Definition start_closing (k : conn) : conn :=
  if is_open (readyState k) then set_readyState CLOSING k else k.

(** ** The collaborators' calls *)

(** [ws.send(JSON.stringify(obj))]. *)
Definition ws_send (c : nat) (obj : value) (s : state) : state :=
  emit (WsSend c (JSON_stringify obj)) s.

(** [ws.close()]: an open socket starts its closing handshake. *)
Definition ws_close (c : nat) (s : state) : state :=
  emit (WsClose c) (update_conn c start_closing s).

(** [terminal.kill()]. *)
Definition pty_kill (h : nat) (s : state) : state := emit (PtyKill h) s.

(** Whether [terminal.write(data)] returns, for the payloads of the wire
    schema: text is written.  A payload that is not text is taken as a
    throw; what node-pty does with one (some versions take an array of
    bytes) is outside this model, and no theorem is about such a payload. *)
Definition write_accepts (data : value) : bool :=
  match data with VStr _ => true | _ => false end.

(** Whether [terminal.resize(cols, rows)] returns, by node-pty's check of
    its arguments alone: positive numbers pass.  The library can throw for
    other reasons too (a terminal whose shell has exited), which this test
    does not see; it only selects the console line of the model. *)
Definition resize_accepts (cols rows : value) : bool :=
  match cols, rows with
  | VNum c, VNum r => (0 <? c) && (0 <? r)
  | _, _ => false
  end.

(** ** Envelopes (the object literals given to [JSON.stringify]) *)

Definition connected_envelope (id shell : string) (pid : Z) : value :=
  VObj [("type", VStr "connected"); ("terminalId", VStr id);
        ("shell", VStr shell); ("pid", VNum pid)].

Definition output_envelope (data : string) : value :=
  VObj [("type", VStr "output"); ("data", VStr data)].

Definition exit_envelope (code signal : value) : value :=
  VObj [("type", VStr "exit"); ("code", code); ("signal", signal)].

Definition error_envelope (message : string) : value :=
  VObj [("type", VStr "error"); ("message", VStr message)].

Definition spawn_error_prefix : string := "创建终端进程失败: ".

(** ** The listeners *)

(** [wss.on('connection', (ws, req) => ...)].  The new connection gets the
    next handle; [ws] is [OPEN] when the listener runs. *)
Definition on_connection (hst : host) (rnd36 : string) (req : value)
    (res : spawn_result) (s : state) : state :=
  let c := length (conns s) in
  let id := generateId rnd36 in
  let s := set_conns (conns s ++ [Conn id OPEN false false]) s in
  let s := console LogNewConnection s in
  let shell := select_shell hst in
  let s := emit (PtySpawn c shell [] (spawn_options_of hst) res) s in
  match res with
  | SpawnOk pid =>
      let s := set_terminals (JsMap.set (terminals s) id c) s in
      let s := console (LogSpawned pid shell) s in
      let s := update_conn c set_spawned s in
      ws_send c (connected_envelope id shell pid) s
  | SpawnThrows message =>
      let s := console (ErrorSpawn message) s in
      let s := ws_send c (error_envelope (spawn_error_prefix ++ message)%string) s in
      ws_close c s
  end.

(** [terminal.onData((data) => ...)]. *)
Definition on_data (c : nat) (k : conn) (data : string) (s : state) : state :=
  if is_open (readyState k) then ws_send c (output_envelope data) s else s.

(** [terminal.onExit((code, signal) => ...)]; the parameters are bound to
    the first two arguments of the call, [undefined] when absent. *)
Definition on_exit (c : nat) (k : conn) (args : list value) (s : state) : state :=
  let code := nth 0 args VUndefined in
  let signal := nth 1 args VUndefined in
  let s := console (LogExit code signal) s in
  let s := set_terminals (JsMap.delete (terminals s) (terminalId k)) s in
  if is_open (readyState k) then
    ws_close c (ws_send c (exit_envelope code signal) s)
  else s.

(** [ws.on('message', (message) => ...)]; [parsed] is the outcome of
    [JSON.parse(message.toString())], [None] when it throws. *)
Definition on_message (c : nat) (parsed : option value) (s : state) : state :=
  match parsed with
  | None => console ErrorMessage s
  | Some data =>
      match get_prop data "type" with
      | None => console ErrorMessage s
      | Some t =>
          if strict_eq_string t "input" then
            match get_prop data "data" with
            | None => console ErrorMessage s
            | Some d =>
                let s := emit (PtyWrite c d) s in
                if write_accepts d then s else console ErrorMessage s
            end
          else if strict_eq_string t "resize" then
            match get_prop data "cols", get_prop data "rows" with
            | Some cols, Some rows =>
                let s := emit (PtyResize c cols rows) s in
                if resize_accepts cols rows then console (LogResized cols rows) s
                else console ErrorMessage s
            | _, _ => console ErrorMessage s
            end
          else console (WarnUnknownType t) s
      end
  end.

(** The body shared by [ws.on('close')] and [ws.on('error')]. *)
Definition release (k : conn) (s : state) : state :=
  match JsMap.get (terminals s) (terminalId k) with
  | Some terminal =>
      let s := pty_kill terminal s in
      set_terminals (JsMap.delete (terminals s) (terminalId k)) s
  | None => s
  end.

(** [ws.on('close', () => ...)]. *)
Definition on_close (k : conn) (s : state) : state :=
  release k (console LogDisconnected s).

(** [ws.on('error', (error) => ...)]. *)
Definition on_error (k : conn) (s : state) : state :=
  release k (console ErrorWebSocket s).

(** [terminals.forEach((terminal, id) => ...)] of the SIGINT listener. *)
Fixpoint kill_each (entries : list (string * nat)) (s : state) : state :=
  match entries with
  | [] => s
  | (id, terminal) :: rest =>
      kill_each rest (pty_kill terminal (console (LogKilling id) s))
  end.

(** [wss.close(cb)]. *)
Definition wss_close (s : state) : state :=
  let s := emit WssClose s in
  {| terminals := terminals s; conns := conns s; wss_closing := true;
     wss_callbacks := S (wss_callbacks s); halted := halted s;
     calls := calls s |}.

(** [process.on('SIGINT', () => ...)]. *)
Definition on_sigint (s : state) : state :=
  let s := console LogShuttingDown s in
  let s := kill_each (terminals s) s in
  wss_close s.

(** The callback given to [wss.close]. *)
Definition on_wss_closed (s : state) : state :=
  let s := emit (ProcessExit 0) (console LogServerClosed s) in
  {| terminals := terminals s; conns := conns s; wss_closing := wss_closing s;
     wss_callbacks := wss_callbacks s; halted := Some 0; calls := calls s |}.

(** ** The event loop *)

(** One turn of the event loop.  The libraries update their own objects
    before they call a listener: ws sets [readyState] to [CLOSED] before
    'close' and leaves [OPEN] before 'error'; node-pty reports an exit.  An
    event for which no listener is registered changes nothing: a message,
    data or exit for a connection whose [try] block did not get that far, a
    handshake after [wss.close()] (the server no longer emits 'connection').
    [PeerClosing] is the close frame of the peer, on which ws leaves [OPEN]
    without calling any listener of the script.  Nothing runs once
    [process.exit] was called. *)
Definition handle (hst : host) (e : event) (s : state) : state :=
  match halted s with
  | Some _ => s
  | None =>
      match e with
      | Connection rnd36 req res =>
          if wss_closing s then s else on_connection hst rnd36 req res s
      | PeerClosing c => update_conn c start_closing s
      | WsMessage c parsed =>
          match conns s !! c with
          | Some k => if spawned k then on_message c parsed s else s
          | None => s
          end
      | WsClosed c =>
          match conns s !! c with
          | Some k => on_close k (update_conn c (set_readyState CLOSED) s)
          | None => s
          end
      | WsError c =>
          match conns s !! c with
          | Some k => on_error k (update_conn c start_closing s)
          | None => s
          end
      | PtyData h data =>
          match conns s !! h with
          | Some k => if spawned k then on_data h k data s else s
          | None => s
          end
      | PtyExit h args =>
          match conns s !! h with
          | Some k =>
              if spawned k then on_exit h k args (update_conn h set_exited s)
              else s
          | None => s
          end
      | Sigint => on_sigint s
      | WssClosed =>
          match wss_callbacks s with
          | O => s
          | S _ => on_wss_closed s
          end
      end
  end.

Definition run (hst : host) (events : list event) (s : state) : state :=
  fold_left (fun acc e => handle hst e acc) events s.

(** ** What the collaborators hold, read off the calls *)

(** The text the terminal [h] was given to read: the accepted writes, in
    order. *)
Fixpoint stdin_of (h : nat) (ks : list call) : string :=
  match ks with
  | [] => ""
  | PtyWrite h' (VStr text) :: rest =>
      if Nat.eqb h' h then (text ++ stdin_of h rest)%string
      else stdin_of h rest
  | _ :: rest => stdin_of h rest
  end.

(** The size of the terminal [h]: the size it was spawned with, then the
    last accepted resize.  [None] before the spawn.  This reads a resize as
    the library applying it to a live terminal, with numbers as large as
    they come (the kernel keeps 16 bits); the theorems on sizes are about runs
    with no resize on the terminal. *)
Definition dims_step (h : nat) (d : option (Z * Z)) (k : call) : option (Z * Z) :=
  match k with
  | PtySpawn h' _ _ opts (SpawnOk _) =>
      if Nat.eqb h' h then Some (opt_cols opts, opt_rows opts) else d
  | PtyResize h' (VNum c) (VNum r) =>
      if Nat.eqb h' h && resize_accepts (VNum c) (VNum r) then
        match d with Some _ => Some (c, r) | None => None end
      else d
  | _ => d
  end.

Definition dims_of (h : nat) (ks : list call) : option (Z * Z) :=
  fold_left (dims_step h) ks None.

(** The envelopes sent on the connection [c], oldest first. *)
Definition sent_to (c : nat) (ks : list call) : list value :=
  omap (fun k => match k with
                 | WsSend c' payload => if Nat.eqb c' c then Some payload else None
                 | _ => None
                 end) ks.

(** Counting calls: how often [terminal.kill()] was called on [h],
    [ws.close()] on [c], and so on. *)
Definition count_calls (p : call -> bool) (ks : list call) : nat :=
  length (List.filter p ks).

Definition is_kill (h : nat) (k : call) : bool :=
  match k with PtyKill h' => Nat.eqb h' h | _ => false end.

Definition is_ws_close (c : nat) (k : call) : bool :=
  match k with WsClose c' => Nat.eqb c' c | _ => false end.

Definition is_ws_send (c : nat) (k : call) : bool :=
  match k with WsSend c' _ => Nat.eqb c' c | _ => false end.

Definition is_console (k : call) : bool :=
  match k with Console _ => true | _ => false end.

(** The calls other than console lines. *)
Definition effects (ks : list call) : list call :=
  List.filter (fun k => negb (is_console k)) ks.

(** Events that carry a resize envelope for the connection [c]. *)
Definition is_resize_for (c : nat) (e : event) : bool :=
  match e with
  | WsMessage c' (Some data) =>
      Nat.eqb c' c &&
      match get_prop data "type" with
      | Some t => strict_eq_string t "resize"
      | None => false
      end
  | _ => false
  end.

(** An inbound [input] envelope with the payload [p]. *)
Definition is_input_envelope (p : string) (data : value) : Prop :=
  get_prop data "type" = Some (VStr "input") /\
  get_prop data "data" = Some (VStr p).

(** A message the script does not recognise: text that [JSON.parse]
    rejects, or a document whose [type] is neither [input] nor [resize]
    (a missing [type], or no property to read at all). *)
Definition unrecognized (parsed : option value) : Prop :=
  match parsed with
  | None => True
  | Some data =>
      get_prop data "type" <> Some (VStr "input") /\
      get_prop data "type" <> Some (VStr "resize")
  end.

(** States the server can be in: those the event loop reaches from the
    start of the script. *)
Inductive reachable (hst : host) : state -> Prop :=
| reachable_init : reachable hst init
| reachable_step s e : reachable hst s -> reachable hst (handle hst e s).

(** ** Invariants, as predicates on states *)

(** Every entry of [terminals] names the terminal of a connection with that
    id, whose listeners are registered, whose exit was not reported and whose
    socket did not report 'close'. *)
Definition registry_sound (s : state) : Prop :=
  forall id h, JsMap.get (terminals s) id = Some h ->
    exists k, conns s !! h = Some k /\ terminalId k = id /\
              spawned k = true /\ exited k = false /\ readyState k <> CLOSED.

(** The ids given out so far, one per accepted connection. *)
Definition ids (s : state) : list string := terminalId <$> conns s.

(** A session whose shell runs and whose socket is [OPEN] is in the map,
    under its own id and with its own terminal. *)
Definition registry_complete (s : state) : Prop :=
  forall c k, conns s !! c = Some k ->
    spawned k = true -> exited k = false -> readyState k = OPEN ->
    JsMap.get (terminals s) (terminalId k) = Some c.

(** ** Where a call comes from *)

(** Events that carry an input envelope for the connection [h]. *)
Definition is_input_for (h : nat) (e : event) : bool :=
  match e with
  | WsMessage c (Some data) =>
      Nat.eqb c h &&
      match get_prop data "type" with
      | Some t => strict_eq_string t "input"
      | None => false
      end
  | _ => false
  end.

(** Events of the terminal [c]: its data and its exit. *)
Definition is_terminal_event (c : nat) (e : event) : bool :=
  match e with
  | PtyData h _ | PtyExit h _ => Nat.eqb h c
  | _ => false
  end.

Definition is_sigint (e : event) : bool :=
  match e with Sigint => true | _ => false end.

(** The connection or terminal a call is made on. *)
Definition call_target (k : call) : option nat :=
  match k with
  | PtySpawn h _ _ _ _ | PtyWrite h _ | PtyResize h _ _ | PtyKill h => Some h
  | WsSend c _ | WsClose c => Some c
  | Console _ | WssClose | ProcessExit _ => None
  end.

(** What one turn of the loop, for the event [e] in the state [s], can
    call: each call other than a console line is tied to the listener that
    makes it and to the condition that listener tests. *)
Definition emitted_by (hst : host) (e : event) (s : state) (k : call) : Prop :=
  match k with
  | Console _ => True
  | PtySpawn h file args opts res =>
      (exists rnd36 req, e = Connection rnd36 req res) /\
      wss_closing s = false /\
      h = length (conns s) /\ file = select_shell hst /\ args = [] /\
      opts = spawn_options_of hst
  | PtyWrite h d =>
      (exists k, conns s !! h = Some k /\ spawned k = true) /\
      exists data, e = WsMessage h (Some data) /\
                   get_prop data "type" = Some (VStr "input") /\
                   get_prop data "data" = Some d
  | PtyResize h cols rows =>
      (exists k, conns s !! h = Some k /\ spawned k = true) /\
      exists data, e = WsMessage h (Some data) /\
                   get_prop data "type" = Some (VStr "resize") /\
                   get_prop data "cols" = Some cols /\
                   get_prop data "rows" = Some rows
  | PtyKill h =>
      (e = Sigint /\ exists id, In (id, h) (terminals s)) \/
      (exists c k, (e = WsClosed c \/ e = WsError c) /\ conns s !! c = Some k /\
                   JsMap.get (terminals s) (terminalId k) = Some h)
  | WsSend c payload =>
      ((exists rnd36 req res, e = Connection rnd36 req res) /\
       wss_closing s = false /\ c = length (conns s)) \/
      (exists k, conns s !! c = Some k /\ readyState k = OPEN /\
                 ((exists data, e = PtyData c data /\
                                payload = JSON_stringify (output_envelope data)) \/
                  (exists args, e = PtyExit c args)))
  | WsClose c =>
      ((exists rnd36 req message, e = Connection rnd36 req (SpawnThrows message)) /\
       wss_closing s = false /\ c = length (conns s)) \/
      (exists k args, conns s !! c = Some k /\ readyState k = OPEN /\
                      e = PtyExit c args)
  | WssClose => e = Sigint
  | ProcessExit code => e = WssClosed /\ code = 0
  end.

(** Every call made so far is on a connection that exists. *)
Definition targets_exist (s : state) : Prop :=
  Forall (fun k => match call_target k with
                   | Some h => (h < length (conns s))%nat
                   | None => True
                   end) (calls s).

(** ** The page that sends commands (aiIntegration.js) *)

(** The globals [executeCommandInTerminal] reads: [window.websockets], a
    Map from tab id to WebSocket (here the [readyState] of each), and
    [window.activeTabId]; [None] when [typeof] gives 'undefined'. *)
Record window : Type := Window {
  websockets : option (list (Z * ready_state));
  activeTabId : option Z
}.

(** [window.websockets.get(tab)]. *)
Fixpoint tab_socket (socks : list (Z * ready_state)) (tab : Z) : option ready_state :=
  match socks with
  | [] => None
  | (t, r) :: rest => if Z.eqb t tab then Some r else tab_socket rest tab
  end.

Inductive page_call : Type :=
| TabSend (tab : Z) (text : value)
| WarnNotAvailable
| WarnNoGlobals.

(** The text of the escape for a line feed, character 10. *)
Definition newline : string := String (Ascii.ascii_of_nat 10) EmptyString.

(** [executeCommandInTerminal(command)]: what the page does. *)
Definition executeCommandInTerminal (w : window) (command : string) : page_call :=
  match websockets w, activeTabId w with
  | Some socks, Some tab =>
      match tab_socket socks tab with
      | Some r =>
          if is_open r then
            let commandWithNewline := (command ++ newline)%string in
            TabSend tab (JSON_stringify
                           (VObj [("type", VStr "input");
                                  ("data", VStr commandWithNewline)]))
          else WarnNotAvailable
      | None => WarnNotAvailable
      end
  | _, _ => WarnNoGlobals
  end.

(** ** Lemmas on the [terminals] map *)

Module JsMapFacts.
Section WithValues.
Context {V : Type}.
Implicit Types (m : list (string * V)) (k : string) (v : V).

Lemma get_set_eq m k v : JsMap.get (JsMap.set m k v) k = Some v.
Proof.
  induction m as [|[k' v'] m IH]; simpl.
  - now rewrite String.eqb_refl.
  - destruct (String.eqb k' k) eqn:E; simpl.
    + now rewrite String.eqb_refl.
    + now rewrite E.
Qed.

Lemma get_set_ne m k k' v :
  k <> k' -> JsMap.get (JsMap.set m k v) k' = JsMap.get m k'.
Proof.
  intros Hne. induction m as [|[k0 v0] m IH]; simpl.
  - destruct (String.eqb_spec k k'); [contradiction | reflexivity].
  - destruct (String.eqb_spec k0 k) as [->|Hk]; simpl.
    + destruct (String.eqb_spec k k'); [contradiction | reflexivity].
    + destruct (String.eqb_spec k0 k'); [reflexivity | exact IH].
Qed.

Lemma get_delete_eq m k : JsMap.get (JsMap.delete m k) k = None.
Proof.
  induction m as [|[k0 v0] m IH]; simpl; [reflexivity|].
  destruct (String.eqb k0 k) eqn:E; simpl; [exact IH|].
  now rewrite E.
Qed.

Lemma get_delete_ne m k k' :
  k <> k' -> JsMap.get (JsMap.delete m k) k' = JsMap.get m k'.
Proof.
  intros Hne. induction m as [|[k0 v0] m IH]; simpl; [reflexivity|].
  destruct (String.eqb_spec k0 k) as [->|Hk]; simpl.
  - destruct (String.eqb_spec k k'); [contradiction | exact IH].
  - destruct (String.eqb_spec k0 k'); [reflexivity | exact IH].
Qed.

Lemma get_Some_In m k v : JsMap.get m k = Some v -> In (k, v) m.
Proof.
  induction m as [|[k0 v0] m IH]; simpl; [discriminate|].
  destruct (String.eqb_spec k0 k) as [->|Hk].
  - intros [= ->]. now left.
  - intros H. right. now apply IH.
Qed.

Lemma In_keys_get m k : In k (JsMap.keys m) -> exists v, JsMap.get m k = Some v.
Proof.
  induction m as [|[k0 v0] m IH]; simpl; [contradiction|].
  destruct (String.eqb_spec k0 k) as [->|Hk].
  - intros _. now exists v0.
  - intros [H|H]; [contradiction | now apply IH].
Qed.

Lemma keys_delete_subset m k k' :
  In k' (JsMap.keys (JsMap.delete m k)) -> In k' (JsMap.keys m).
Proof.
  induction m as [|[k0 v0] m IH]; simpl; [tauto|].
  destruct (String.eqb k0 k); simpl; intuition.
Qed.

Lemma keys_set_subset m k v k' :
  In k' (JsMap.keys (JsMap.set m k v)) -> k' = k \/ In k' (JsMap.keys m).
Proof.
  induction m as [|[k0 v0] m IH]; simpl.
  - intuition.
  - destruct (String.eqb_spec k0 k) as [->|Hk]; simpl; intuition.
Qed.

Lemma NoDup_keys_delete m k :
  NoDup (JsMap.keys m) -> NoDup (JsMap.keys (JsMap.delete m k)).
Proof.
  induction m as [|[k0 v0] m IH]; simpl; [trivial|].
  intros Hnd. apply NoDup_cons in Hnd as [Hnotin Hnd].
  destruct (String.eqb k0 k); simpl; [now apply IH|].
  apply NoDup_cons. split; [|now apply IH].
  rewrite list_elem_of_In. intros Hin. apply Hnotin.
  rewrite list_elem_of_In. eapply keys_delete_subset, Hin.
Qed.

Lemma NoDup_keys_set m k v :
  NoDup (JsMap.keys m) -> NoDup (JsMap.keys (JsMap.set m k v)).
Proof.
  induction m as [|[k0 v0] m IH]; simpl.
  - intros _. apply NoDup_singleton.
  - intros Hnd. apply NoDup_cons in Hnd as [Hnotin Hnd].
    destruct (String.eqb_spec k0 k) as [->|Hk]; simpl.
    + now apply NoDup_cons.
    + apply NoDup_cons. split; [|now apply IH].
      rewrite list_elem_of_In. intros Hin.
      apply keys_set_subset in Hin as [->|Hin]; [congruence|].
      apply Hnotin. now rewrite list_elem_of_In.
Qed.
End WithValues.
End JsMapFacts.

(** ** Basic facts *)

Lemma strict_eq_string_true v lit :
  strict_eq_string v lit = true <-> v = VStr lit.
Proof.
  destruct v; simpl; split; try discriminate.
  - intros H. apply String.eqb_eq in H. now subst.
  - intros [= ->]. apply String.eqb_refl.
Qed.

Lemma strict_eq_string_false v lit :
  strict_eq_string v lit = false <-> v <> VStr lit.
Proof.
  rewrite <- strict_eq_string_true. destruct (strict_eq_string v lit); split;
    congruence.
Qed.

Lemma string_append_assoc (a b c : string) :
  ((a ++ b) ++ c = a ++ (b ++ c))%string.
Proof.
  induction a as [|ch a IH]; [reflexivity|].
  change (String ch ((a ++ b) ++ c) = String ch (a ++ (b ++ c)))%string.
  now f_equal.
Qed.

Lemma string_append_nil_r (a : string) : (a ++ "" = a)%string.
Proof.
  induction a as [|ch a IH]; [reflexivity|].
  change (String ch (a ++ "") = String ch a)%string. now f_equal.
Qed.

Lemma effects_app ks1 ks2 : effects (ks1 ++ ks2) = effects ks1 ++ effects ks2.
Proof. unfold effects. apply List.filter_app. Qed.

Lemma sent_to_app c ks1 ks2 :
  sent_to c (ks1 ++ ks2) = sent_to c ks1 ++ sent_to c ks2.
Proof. unfold sent_to. apply omap_app. Qed.

Lemma stdin_of_app h ks1 ks2 :
  stdin_of h (ks1 ++ ks2) = (stdin_of h ks1 ++ stdin_of h ks2)%string.
Proof.
  induction ks1 as [|k ks1 IH]; simpl; [reflexivity|].
  destruct k; try exact IH.
  destruct data; try exact IH.
  destruct (Nat.eqb h0 h); [|exact IH].
  rewrite IH. symmetry. apply string_append_assoc.
Qed.

Lemma count_calls_app p ks1 ks2 :
  count_calls p (ks1 ++ ks2) = (count_calls p ks1 + count_calls p ks2)%nat.
Proof. unfold count_calls. now rewrite List.filter_app, length_app. Qed.

Lemma calls_console line s : calls (console line s) = calls s ++ [Console line].
Proof. reflexivity. Qed.

Lemma effects_console line s : effects (calls (console line s)) = effects (calls s).
Proof. rewrite calls_console, effects_app. simpl. apply app_nil_r. Qed.

(** ** Inbound messages *)

(** C8.  On a connection whose listeners are registered, a message that is
    malformed JSON, or whose type is neither input nor resize, only adds one
    console line: the [terminals] map, every connection, the listener and all
    calls on the terminal and the socket are as before. *)
Theorem unrecognized_message_ignored (hst : host) (c : nat) (k : conn)
    (parsed : option value) (s : state) :
  halted s = None ->
  conns s !! c = Some k ->
  spawned k = true ->
  unrecognized parsed ->
  let s' := handle hst (WsMessage c parsed) s in
  (exists line, s' = console line s) /\
  terminals s' = terminals s /\
  conns s' = conns s /\
  halted s' = None /\
  effects (calls s') = effects (calls s).
Proof.
  intros Hrun Hc Hsp Hun. cbn zeta.
  assert (Hline : exists line, handle hst (WsMessage c parsed) s = console line s).
  { unfold handle. rewrite Hrun, Hc, Hsp. unfold on_message.
    destruct parsed as [data|]; [|now eexists].
    destruct Hun as [Hin Hre].
    destruct (get_prop data "type") as [t|]; [|now eexists].
    assert (strict_eq_string t "input" = false) as ->
      by (apply strict_eq_string_false; congruence).
    assert (strict_eq_string t "resize" = false) as ->
      by (apply strict_eq_string_false; congruence).
    now eexists. }
  destruct Hline as [line ->]. split; [now exists line|].
  repeat split; [exact Hrun | apply effects_console].
Qed.

(** A witness: the text [{"type":"ping"}] on the first connection. *)
Lemma unrecognized_message_ignored_witness :
  let hst := Host "linux" [] "/" in
  let s := handle hst (Connection "0.4fzyo82mvyr" VNull (SpawnOk 4242)) init in
  let s' := handle hst (WsMessage 0 (Some (VObj [("type", VStr "ping")]))) s in
  (exists line, s' = console line s) /\
  terminals s' = terminals s /\
  conns s' = conns s /\
  halted s' = None /\
  effects (calls s') = effects (calls s).
Proof.
  intros hst s.
  apply (unrecognized_message_ignored hst 0%nat
           (Conn "4fzyo82mv" OPEN true false)
           (Some (VObj [("type", VStr "ping")])) s).
  - reflexivity.
  - reflexivity.
  - reflexivity.
  - split; discriminate.
Defined.

Lemma run_cons hst e es s : run hst (e :: es) s = run hst es (handle hst e s).
Proof. reflexivity. Qed.

Lemma run_app hst es1 es2 s :
  run hst (es1 ++ es2) s = run hst es2 (run hst es1 s).
Proof. unfold run. apply fold_left_app. Qed.

(** The writes of a run of input envelopes, as the terminal reads them. *)
Lemma stdin_of_writes (h : nat) (payloads : list string) :
  stdin_of h (map (fun p => PtyWrite h (VStr p)) payloads)
  = fold_right String.append "" payloads.
Proof.
  induction payloads as [|p ps IH]; simpl; [reflexivity|].
  now rewrite Nat.eqb_refl, IH.
Qed.

Lemma handle_input (hst : host) (c : nat) (k : conn) (p : string)
    (data : value) (s : state) :
  halted s = None ->
  conns s !! c = Some k ->
  spawned k = true ->
  is_input_envelope p data ->
  handle hst (WsMessage c (Some data)) s = emit (PtyWrite c (VStr p)) s.
Proof.
  intros Hrun Hc Hsp [Hty Hdata].
  unfold handle. rewrite Hrun, Hc, Hsp. unfold on_message.
  rewrite Hty, Hdata. reflexivity.
Qed.

(** C7.  On a connection whose listeners are registered, a sequence of
    input envelopes makes the script call [terminal.write] once per
    envelope, with the payload as it came and in the order of receipt, and
    nothing else: the terminal reads the payloads concatenated in that
    order. *)
Theorem input_forwarded_in_order (hst : host) (c : nat) (k : conn)
    (payloads : list string) (envelopes : list value) (s : state) :
  halted s = None ->
  conns s !! c = Some k ->
  spawned k = true ->
  Forall2 is_input_envelope payloads envelopes ->
  let s' := run hst (map (fun d => WsMessage c (Some d)) envelopes) s in
  calls s' = calls s ++ map (fun p => PtyWrite c (VStr p)) payloads /\
  stdin_of c (calls s')
  = (stdin_of c (calls s) ++ fold_right String.append "" payloads)%string /\
  terminals s' = terminals s /\
  conns s' = conns s.
Proof.
  intros Hrun Hc Hsp Hall. cbn zeta.
  assert (Hcalls :
    calls (run hst (map (fun d => WsMessage c (Some d)) envelopes) s)
    = calls s ++ map (fun p => PtyWrite c (VStr p)) payloads /\
    terminals (run hst (map (fun d => WsMessage c (Some d)) envelopes) s)
    = terminals s /\
    conns (run hst (map (fun d => WsMessage c (Some d)) envelopes) s)
    = conns s).
  { revert s Hrun Hc.
    induction Hall as [|p d ps ds Hpd Hall IH]; intros s Hrun Hc.
    - simpl. now rewrite app_nil_r.
    - rewrite !map_cons, run_cons.
      rewrite (handle_input hst c k p d s Hrun Hc Hsp Hpd).
      destruct (IH (emit (PtyWrite c (VStr p)) s) Hrun Hc) as (E1 & E2 & E3).
      rewrite E1, E2, E3. split; [|now split].
      change (calls (emit (PtyWrite c (VStr p)) s))
        with (calls s ++ [PtyWrite c (VStr p)]).
      now rewrite <- app_assoc. }
  destruct Hcalls as (E1 & E2 & E3).
  repeat split; try assumption.
  now rewrite E1, stdin_of_app, stdin_of_writes.
Qed.

(** A witness: the payloads a, b, c reach the terminal as abc. *)
Lemma input_forwarded_in_order_witness :
  let hst := Host "linux" [] "/" in
  let s := handle hst (Connection "0.4fzyo82mvyr" VNull (SpawnOk 4242)) init in
  let envelope p := VObj [("type", VStr "input"); ("data", VStr p)] in
  let s' := run hst (map (fun d => WsMessage 0 (Some d))
                         [envelope "a"; envelope "b"; envelope "c"]) s in
  stdin_of 0 (calls s') = "abc".
Proof.
  intros hst s envelope.
  refine (proj1 (proj2 (input_forwarded_in_order hst 0%nat
           (Conn "4fzyo82mv" OPEN true false) ["a"; "b"; "c"]
           [envelope "a"; envelope "b"; envelope "c"] s _ _ _ _))).
  - reflexivity.
  - reflexivity.
  - reflexivity.
  - repeat constructor.
Defined.

(** ** What each listener leaves alone *)

Lemma kill_each_calls entries s :
  calls (kill_each entries s)
  = calls s ++ flat_map (fun e => [Console (LogKilling (fst e)); PtyKill (snd e)])
                        entries.
Proof.
  revert s. induction entries as [|[id h] rest IH]; intros s; simpl.
  - now rewrite app_nil_r.
  - rewrite IH. simpl. now rewrite <- !app_assoc.
Qed.

Lemma kill_each_frame entries s :
  terminals (kill_each entries s) = terminals s /\
  conns (kill_each entries s) = conns s /\
  halted (kill_each entries s) = halted s /\
  wss_closing (kill_each entries s) = wss_closing s /\
  wss_callbacks (kill_each entries s) = wss_callbacks s.
Proof.
  revert s. induction entries as [|[id h] rest IH]; intros s; simpl.
  - repeat split.
  - destruct (IH (pty_kill h (console (LogKilling id) s))) as (A & B & C & D & E).
    rewrite A, B, C, D, E. repeat split.
Qed.

Lemma on_message_frame c parsed s :
  terminals (on_message c parsed s) = terminals s /\
  conns (on_message c parsed s) = conns s /\
  halted (on_message c parsed s) = halted s.
Proof.
  unfold on_message.
  repeat match goal with
         | |- context [match ?x with _ => _ end] => destruct x
         end; repeat split.
Qed.

Lemma delete_absent {V} (m : list (string * V)) k :
  JsMap.get m k = None -> JsMap.delete m k = m.
Proof.
  induction m as [|[k0 v0] m IH]; simpl; [reflexivity|].
  destruct (String.eqb k0 k); [discriminate|].
  intros H. now rewrite IH.
Qed.

Lemma release_terminals k s :
  terminals (release k s) = JsMap.delete (terminals s) (terminalId k).
Proof.
  unfold release.
  destruct (JsMap.get (terminals s) (terminalId k)) eqn:E; simpl.
  - reflexivity.
  - now rewrite delete_absent.
Qed.

Lemma release_frame k s :
  conns (release k s) = conns s /\ halted (release k s) = halted s.
Proof.
  unfold release. destruct (JsMap.get (terminals s) (terminalId k)); now split.
Qed.

(** The [terminals] map and the connections after one turn of the loop. *)
Lemma handle_connection_ok hst rnd36 req pid s :
  halted s = None -> wss_closing s = false ->
  let s' := handle hst (Connection rnd36 req (SpawnOk pid)) s in
  terminals s' = JsMap.set (terminals s) (generateId rnd36) (length (conns s)) /\
  conns s' = conns s ++ [Conn (generateId rnd36) OPEN true false].
Proof.
  intros Hrun Hl. cbn zeta. unfold handle, on_connection. rewrite Hrun, Hl.
  simpl. split; [reflexivity|].
  rewrite alter_app_r_alt by lia. now rewrite Nat.sub_diag.
Qed.

Lemma handle_connection_fail hst rnd36 req message s :
  halted s = None -> wss_closing s = false ->
  let s' := handle hst (Connection rnd36 req (SpawnThrows message)) s in
  terminals s' = terminals s /\
  conns s' = conns s ++ [Conn (generateId rnd36) CLOSING false false].
Proof.
  intros Hrun Hl. cbn zeta. unfold handle, on_connection. rewrite Hrun, Hl.
  simpl. split; [reflexivity|].
  rewrite alter_app_r_alt by lia. now rewrite Nat.sub_diag.
Qed.

(** A connection keeps its id and its listeners through every event. *)
Lemma lookup_alter_stable (f : conn -> conn) c (l : list conn) c' k :
  (forall x, terminalId (f x) = terminalId x /\ spawned (f x) = spawned x) ->
  l !! c' = Some k ->
  exists k', alter f c l !! c' = Some k' /\
             terminalId k' = terminalId k /\ spawned k' = spawned k.
Proof.
  intros Hf Hk. rewrite list_lookup_alter. destruct (decide (c = c')) as [->|].
  - rewrite Hk. simpl. exists (f k). split; [reflexivity | apply Hf].
  - now exists k.
Qed.

Lemma start_closing_stable x :
  terminalId (start_closing x) = terminalId x /\
  spawned (start_closing x) = spawned x.
Proof. unfold start_closing. destruct (is_open (readyState x)); now split. Qed.

Lemma conn_stable hst e s c k :
  conns s !! c = Some k ->
  exists k', conns (handle hst e s) !! c = Some k' /\
             terminalId k' = terminalId k /\ spawned k' = spawned k.
Proof.
  intros Hk. unfold handle.
  destruct (halted s) eqn:Hrun; [now exists k|].
  destruct e as [rnd36 req res|c0|c0 parsed|c0|c0|h data|h args| |].
  - destruct (wss_closing s) eqn:Hl; [now exists k|].
    destruct res as [pid|message].
    + destruct (handle_connection_ok hst rnd36 req pid s Hrun Hl) as [_ E].
      unfold handle in E. rewrite Hrun, Hl in E. rewrite E.
      exists k. split; [now apply lookup_app_l_Some | now split].
    + destruct (handle_connection_fail hst rnd36 req message s Hrun Hl) as [_ E].
      unfold handle in E. rewrite Hrun, Hl in E. rewrite E.
      exists k. split; [now apply lookup_app_l_Some | now split].
  - simpl. apply lookup_alter_stable; [apply start_closing_stable | exact Hk].
  - destruct (conns s !! c0) as [k0|]; [|now exists k].
    destruct (spawned k0); [|now exists k].
    destruct (on_message_frame c0 parsed s) as (_ & E & _). rewrite E.
    now exists k.
  - destruct (conns s !! c0) as [k0|]; [|now exists k].
    unfold on_close. rewrite (proj1 (release_frame _ _)). simpl.
    apply lookup_alter_stable; [now split | exact Hk].
  - destruct (conns s !! c0) as [k0|]; [|now exists k].
    unfold on_error. rewrite (proj1 (release_frame _ _)). simpl.
    apply lookup_alter_stable; [apply start_closing_stable | exact Hk].
  - destruct (conns s !! h) as [k0|]; [|now exists k].
    destruct (spawned k0); [|now exists k].
    unfold on_data. destruct (is_open (readyState k0)); now exists k.
  - destruct (conns s !! h) as [k0|]; [|now exists k].
    destruct (spawned k0); [|now exists k].
    unfold on_exit. destruct (is_open (readyState k0)); simpl.
    + destruct (lookup_alter_stable set_exited h (conns s) c k) as (k1 & E1 & A & B);
        [now split | exact Hk |].
      destruct (lookup_alter_stable start_closing h (alter set_exited h (conns s)) c k1)
        as (k2 & E2 & A2 & B2); [apply start_closing_stable | exact E1 |].
      exists k2. split; [exact E2 | split; congruence].
    + apply lookup_alter_stable; [now split | exact Hk].
  - unfold on_sigint, wss_close. simpl.
    rewrite (proj1 (proj2 (kill_each_frame _ _))). now exists k.
  - destruct (wss_callbacks s); now exists k.
Qed.

Lemma conn_stable_run hst events s c k :
  conns s !! c = Some k ->
  exists k', conns (run hst events s) !! c = Some k' /\
             terminalId k' = terminalId k /\ spawned k' = spawned k.
Proof.
  revert s k. induction events as [|e es IH]; intros s k Hk.
  - now exists k.
  - rewrite run_cons.
    destruct (conn_stable hst e s c k Hk) as (k1 & E1 & A & B).
    destruct (IH _ _ E1) as (k2 & E2 & A2 & B2).
    exists k2. split; [exact E2 | split; congruence].
Qed.

(** ** Invariants of the [terminals] map *)

Lemma lookup_alter_other (f : conn -> conn) c (l : list conn) h k :
  l !! h = Some k -> h <> c -> alter f c l !! h = Some k.
Proof. intros Hk Hne. now rewrite list_lookup_alter_ne. Qed.

(** After its id was deleted, the entries left belong to other
    connections. *)
Lemma sound_after_delete s c k (cs : list conn) :
  registry_sound s ->
  conns s !! c = Some k ->
  (forall h k', h <> c -> conns s !! h = Some k' -> cs !! h = Some k') ->
  forall id h, JsMap.get (JsMap.delete (terminals s) (terminalId k)) id = Some h ->
    exists k', cs !! h = Some k' /\ terminalId k' = id /\
               spawned k' = true /\ exited k' = false /\ readyState k' <> CLOSED.
Proof.
  intros Hinv Hk Hcs id h Hget.
  destruct (String.eqb_spec (terminalId k) id) as [<-|Hne].
  - now rewrite JsMapFacts.get_delete_eq in Hget.
  - rewrite JsMapFacts.get_delete_ne in Hget by exact Hne.
    destruct (Hinv id h Hget) as (k' & Hk' & Hid & Hrest).
    exists k'. split; [|now split].
    apply Hcs; [|exact Hk']. intros ->. congruence.
Qed.

Lemma registry_sound_step hst e s :
  registry_sound s -> registry_sound (handle hst e s).
Proof.
  intros Hinv. unfold handle.
  destruct (halted s) eqn:Hrun; [exact Hinv|].
  destruct e as [rnd36 req res|c0|c0 parsed|c0|c0|h0 data|h0 args| |].
  - destruct (wss_closing s) eqn:Hl; [exact Hinv|].
    destruct res as [pid|message].
    + destruct (handle_connection_ok hst rnd36 req pid s Hrun Hl) as [ET EC].
      unfold handle in ET, EC. rewrite Hrun, Hl in ET, EC.
      intros id h. rewrite ET, EC.
      destruct (String.eqb_spec (generateId rnd36) id) as [<-|Hne].
      * rewrite JsMapFacts.get_set_eq. intros [= <-].
        exists (Conn (generateId rnd36) OPEN true false).
        rewrite lookup_app_r by lia. rewrite Nat.sub_diag. now repeat split.
      * rewrite JsMapFacts.get_set_ne by exact Hne. intros Hget.
        destruct (Hinv id h Hget) as (k & Hk & Hrest).
        exists k. split; [now apply lookup_app_l_Some | exact Hrest].
    + destruct (handle_connection_fail hst rnd36 req message s Hrun Hl) as [ET EC].
      unfold handle in ET, EC. rewrite Hrun, Hl in ET, EC.
      intros id h. rewrite ET, EC. intros Hget.
      destruct (Hinv id h Hget) as (k & Hk & Hrest).
      exists k. split; [now apply lookup_app_l_Some | exact Hrest].
  - intros id h Hget. simpl in Hget |- *.
    destruct (Hinv id h Hget) as (k & Hk & Hid & Hsp & Hex & Hrs).
    rewrite list_lookup_alter. destruct (decide (c0 = h)) as [->|].
    + rewrite Hk. simpl. exists (start_closing k). split; [reflexivity|].
      unfold start_closing. destruct (readyState k) eqn:E; simpl;
        rewrite ?E; repeat split; try assumption; discriminate.
    + exists k. now repeat split.
  - destruct (conns s !! c0) as [k0|]; [|exact Hinv].
    destruct (spawned k0); [|exact Hinv].
    destruct (on_message_frame c0 parsed s) as (ET & EC & _).
    intros id h. rewrite ET, EC. apply Hinv.
  - destruct (conns s !! c0) as [k0|] eqn:Hk0; [|exact Hinv].
    intros id h. unfold on_close.
    rewrite release_terminals, (proj1 (release_frame _ _)). simpl.
    apply (sound_after_delete s c0 k0); [exact Hinv | exact Hk0 |].
    intros h' k' Hne Hk'. now apply lookup_alter_other.
  - destruct (conns s !! c0) as [k0|] eqn:Hk0; [|exact Hinv].
    intros id h. unfold on_error.
    rewrite release_terminals, (proj1 (release_frame _ _)). simpl.
    apply (sound_after_delete s c0 k0); [exact Hinv | exact Hk0 |].
    intros h' k' Hne Hk'. now apply lookup_alter_other.
  - destruct (conns s !! h0) as [k0|]; [|exact Hinv].
    destruct (spawned k0); [|exact Hinv].
    unfold on_data. destruct (is_open (readyState k0)); exact Hinv.
  - destruct (conns s !! h0) as [k0|] eqn:Hk0; [|exact Hinv].
    destruct (spawned k0); [|exact Hinv].
    intros id h. unfold on_exit.
    destruct (is_open (readyState k0)); simpl;
      apply (sound_after_delete s h0 k0); try assumption;
      intros h' k' Hne Hk'; repeat apply lookup_alter_other; assumption.
  - intros id h. unfold on_sigint, wss_close. simpl.
    destruct (kill_each_frame (terminals s) (console LogShuttingDown s))
      as (ET & EC & _).
    rewrite ET, EC. apply Hinv.
  - destruct (wss_callbacks s); exact Hinv.
Qed.

Lemma registry_sound_reachable hst s : reachable hst s -> registry_sound s.
Proof.
  induction 1 as [|s e _ IH].
  - intros id h. discriminate.
  - now apply registry_sound_step.
Qed.

Lemma reachable_run hst events s :
  reachable hst s -> reachable hst (run hst events s).
Proof.
  revert s. induction events as [|e es IH]; intros s Hs; [exact Hs|].
  rewrite run_cons. apply IH. now constructor.
Qed.

(** The keys of [terminals] are pairwise distinct. *)
Lemma registry_keys_distinct hst s :
  reachable hst s -> NoDup (JsMap.keys (terminals s)).
Proof.
  induction 1 as [|s e _ IH]; [apply NoDup_nil_2|].
  unfold handle. destruct (halted s) eqn:Hrun; [exact IH|].
  destruct e as [rnd36 req res|c0|c0 parsed|c0|c0|h0 data|h0 args| |].
  - destruct (wss_closing s) eqn:Hl; [exact IH|].
    destruct res as [pid|message].
    + destruct (handle_connection_ok hst rnd36 req pid s Hrun Hl) as [ET _].
      unfold handle in ET. rewrite Hrun, Hl in ET. rewrite ET.
      now apply JsMapFacts.NoDup_keys_set.
    + destruct (handle_connection_fail hst rnd36 req message s Hrun Hl) as [ET _].
      unfold handle in ET. rewrite Hrun, Hl in ET. now rewrite ET.
  - exact IH.
  - destruct (conns s !! c0) as [k0|]; [|exact IH].
    destruct (spawned k0); [|exact IH].
    now rewrite (proj1 (on_message_frame c0 parsed s)).
  - destruct (conns s !! c0) as [k0|]; [|exact IH].
    unfold on_close. rewrite release_terminals.
    now apply JsMapFacts.NoDup_keys_delete.
  - destruct (conns s !! c0) as [k0|]; [|exact IH].
    unfold on_error. rewrite release_terminals.
    now apply JsMapFacts.NoDup_keys_delete.
  - destruct (conns s !! h0) as [k0|]; [|exact IH].
    destruct (spawned k0); [|exact IH].
    unfold on_data. destruct (is_open (readyState k0)); exact IH.
  - destruct (conns s !! h0) as [k0|]; [|exact IH].
    destruct (spawned k0); [|exact IH].
    unfold on_exit. destruct (is_open (readyState k0)); simpl;
      now apply JsMapFacts.NoDup_keys_delete.
  - unfold on_sigint, wss_close. simpl.
    now rewrite (proj1 (kill_each_frame _ _)).
  - destruct (wss_callbacks s); exact IH.
Qed.

(** C5.  When [pty.spawn] throws, the connection listener makes one spawn
    attempt, sends one error envelope whose message is the prefix followed
    by the error's message, and closes the socket; the [terminals] map is as
    before, and no later event ever puts this connection's terminal into
    it. *)
Theorem spawn_failure_never_registered (hst : host) (rnd36 : string)
    (req : value) (message : string) (s : state) :
  reachable hst s ->
  halted s = None ->
  wss_closing s = false ->
  let c := length (conns s) in
  let s' := handle hst (Connection rnd36 req (SpawnThrows message)) s in
  calls s' = calls s ++
    [Console LogNewConnection;
     PtySpawn c (select_shell hst) [] (spawn_options_of hst) (SpawnThrows message);
     Console (ErrorSpawn message);
     WsSend c (VObj [("type", VStr "error");
                     ("message", VStr (spawn_error_prefix ++ message))]);
     WsClose c] /\
  terminals s' = terminals s /\
  conns s' = conns s ++ [Conn (generateId rnd36) CLOSING false false] /\
  (forall events id, JsMap.get (terminals (run hst events s')) id <> Some c).
Proof.
  intros Hreach Hrun Hl c s'.
  destruct (handle_connection_fail hst rnd36 req message s Hrun Hl) as [ET EC].
  fold s' in ET, EC.
  split; [|split; [exact ET | split; [exact EC|]]].
  - subst s'. unfold handle, on_connection. rewrite Hrun, Hl. simpl.
    now rewrite <- !app_assoc.
  - intros events id Hget.
    assert (Hr : reachable hst (run hst events s')).
    { apply reachable_run. subst s'. now constructor. }
    destruct (registry_sound_reachable _ _ Hr id c Hget) as (k & Hk & _ & Hsp & _).
    assert (Hc : conns s' !! c = Some (Conn (generateId rnd36) CLOSING false false)).
    { rewrite EC. rewrite lookup_app_r by (subst c; lia).
      subst c. now rewrite Nat.sub_diag. }
    destruct (conn_stable_run hst events s' c _ Hc) as (k' & Hk' & _ & Hsp').
    rewrite Hk in Hk'. injection Hk' as <-. simpl in Hsp'. congruence.
Qed.

(** A witness: the first connection of a fresh server fails to spawn. *)
Lemma spawn_failure_never_registered_witness :
  let hst := Host "linux" [] "/" in
  let s' := handle hst (Connection "0.4fzyo82mvyr" VNull (SpawnThrows "ENOENT")) init in
  terminals s' = [] /\
  sent_to 0 (calls s') =
    [VObj [("type", VStr "error");
           ("message", VStr (spawn_error_prefix ++ "ENOENT"))]] /\
  (forall events id, JsMap.get (terminals (run hst events s')) id <> Some 0%nat).
Proof.
  intros hst s'.
  destruct (spawn_failure_never_registered hst "0.4fzyo82mvyr" VNull "ENOENT"
              init (reachable_init hst) eq_refl eq_refl) as (E1 & E2 & E3 & E4).
  split; [exact E2|]. split; [|exact E4].
  subst s'. rewrite E1. reflexivity.
Defined.

(** ** The size of a terminal *)

Lemma dims_of_snoc h ks k : dims_of h (ks ++ [k]) = dims_step h (dims_of h ks) k.
Proof. unfold dims_of. now rewrite fold_left_app. Qed.

Lemma dims_of_app h ks1 ks2 :
  dims_of h (ks1 ++ ks2) = fold_left (dims_step h) ks2 (dims_of h ks1).
Proof. unfold dims_of. now rewrite fold_left_app. Qed.

Lemma dims_step_resize_other h h' d cols rows :
  h' <> h -> dims_step h d (PtyResize h' cols rows) = d.
Proof.
  intros Hne. apply Nat.eqb_neq in Hne.
  destruct cols, rows; simpl; try reflexivity. now rewrite Hne.
Qed.

Lemma dims_kill_each h entries d :
  fold_left (dims_step h)
    (flat_map (fun e : string * nat => [Console (LogKilling (fst e)); PtyKill (snd e)])
              entries) d = d.
Proof. revert d. induction entries as [|e rest IH]; intros d; simpl; auto. Qed.

(** One turn of the loop keeps the size of the terminal of an existing
    connection, unless the event is a resize envelope on that connection. *)
Lemma dims_kept hst e s c :
  (c < length (conns s))%nat ->
  is_resize_for c e = false ->
  dims_of c (calls (handle hst e s)) = dims_of c (calls s).
Proof.
  intros Hc Hnr. unfold handle.
  destruct (halted s) eqn:Hrun; [reflexivity|].
  destruct e as [rnd36 req res|c0|c0 parsed|c0|c0|h0 data|h0 args| |].
  - destruct (wss_closing s); [reflexivity|].
    assert (Hne : Nat.eqb (length (conns s)) c = false) by (apply Nat.eqb_neq; lia).
    unfold on_connection. destruct res as [pid|message]; simpl;
      rewrite !dims_of_snoc; simpl; now rewrite ?Hne.
  - reflexivity.
  - destruct (conns s !! c0) as [k0|]; [|reflexivity].
    destruct (spawned k0); [|reflexivity].
    unfold on_message. destruct parsed as [data|]; [|apply dims_of_snoc].
    simpl in Hnr.
    destruct (get_prop data "type") as [t|]; [|apply dims_of_snoc].
    destruct (strict_eq_string t "input").
    { destruct (get_prop data "data") as [d|]; [|apply dims_of_snoc].
      destruct (write_accepts d); simpl; rewrite !dims_of_snoc; reflexivity. }
    destruct (strict_eq_string t "resize"); [|apply dims_of_snoc].
    rewrite andb_true_r in Hnr. apply Nat.eqb_neq in Hnr.
    destruct (get_prop data "cols") as [cols|]; [|apply dims_of_snoc].
    destruct (get_prop data "rows") as [rows|]; [|apply dims_of_snoc].
    destruct (resize_accepts cols rows); unfold console; cbn [calls emit];
      rewrite !dims_of_snoc, dims_step_resize_other by exact Hnr; reflexivity.
  - destruct (conns s !! c0) as [k0|]; [|reflexivity].
    unfold on_close, release. simpl.
    destruct (JsMap.get (terminals s) (terminalId k0)); simpl;
      rewrite !dims_of_snoc; reflexivity.
  - destruct (conns s !! c0) as [k0|]; [|reflexivity].
    unfold on_error, release. simpl.
    destruct (JsMap.get (terminals s) (terminalId k0)); simpl;
      rewrite !dims_of_snoc; reflexivity.
  - destruct (conns s !! h0) as [k0|]; [|reflexivity].
    destruct (spawned k0); [|reflexivity].
    unfold on_data. destruct (is_open (readyState k0)); [|reflexivity].
    apply dims_of_snoc.
  - destruct (conns s !! h0) as [k0|]; [|reflexivity].
    destruct (spawned k0); [|reflexivity].
    unfold on_exit. destruct (is_open (readyState k0)); simpl;
      rewrite !dims_of_snoc; reflexivity.
  - unfold on_sigint, wss_close. simpl. rewrite dims_of_snoc. simpl.
    rewrite kill_each_calls, dims_of_app, dims_kill_each. simpl.
    apply dims_of_snoc.
  - destruct (wss_callbacks s); [reflexivity|].
    unfold on_wss_closed. simpl. rewrite !dims_of_snoc. reflexivity.
Qed.

Lemma dims_kept_run hst events s c :
  (c < length (conns s))%nat ->
  Forall (fun e => is_resize_for c e = false) events ->
  dims_of c (calls (run hst events s)) = dims_of c (calls s).
Proof.
  intros Hc Hall. revert s Hc.
  induction Hall as [|e es He Hall IH]; intros s Hc; [reflexivity|].
  rewrite run_cons, IH; [now apply dims_kept|].
  destruct (lookup_lt_is_Some_2 (conns s) c Hc) as [k Hk].
  destruct (conn_stable hst e s c k Hk) as (k' & Hk' & _).
  now apply lookup_lt_Some in Hk'.
Qed.

(** C10.  An accepted connection whose spawn succeeds asks node-pty for 80
    columns and 30 rows, whatever the request, the random draw and the host
    are; through any later events with no resize envelope on that connection
    the terminal keeps that size. *)
Theorem initial_size_fixed (hst : host) (rnd36 : string) (req : value)
    (pid : Z) (events : list event) (s : state) :
  halted s = None ->
  wss_closing s = false ->
  let c := length (conns s) in
  let s' := handle hst (Connection rnd36 req (SpawnOk pid)) s in
  Forall (fun e => is_resize_for c e = false) events ->
  (exists opts,
      In (PtySpawn c (select_shell hst) [] opts (SpawnOk pid)) (calls s') /\
      opt_cols opts = 80 /\ opt_rows opts = 30) /\
  dims_of c (calls s') = Some (80, 30) /\
  dims_of c (calls (run hst events s')) = Some (80, 30).
Proof.
  intros Hrun Hl c s' Hall.
  assert (Hcalls : calls s' = calls s ++
    [Console LogNewConnection;
     PtySpawn c (select_shell hst) [] (spawn_options_of hst) (SpawnOk pid);
     Console (LogSpawned pid (select_shell hst));
     WsSend c (JSON_stringify
                 (connected_envelope (generateId rnd36) (select_shell hst) pid))]).
  { subst s'. unfold handle, on_connection. rewrite Hrun, Hl. simpl.
    now rewrite <- !app_assoc. }
  assert (Hdims : dims_of c (calls s') = Some (80, 30)).
  { rewrite Hcalls, dims_of_app. simpl. now rewrite Nat.eqb_refl. }
  split; [|split; [exact Hdims|]].
  - exists (spawn_options_of hst). split; [|now split].
    rewrite Hcalls. apply in_or_app. right. simpl. tauto.
  - rewrite dims_kept_run; [exact Hdims | | exact Hall].
    destruct (handle_connection_ok hst rnd36 req pid s Hrun Hl) as [_ EC].
    fold s' in EC. rewrite EC, length_app. simpl. subst c. lia.
Qed.

(** A witness: input, output and an unknown message do not resize. *)
Lemma initial_size_fixed_witness :
  let hst := Host "linux" [] "/" in
  let s' := handle hst (Connection "0.4fzyo82mvyr" (VStr "cols=200") (SpawnOk 4242))
                   init in
  dims_of 0 (calls (run hst
    [WsMessage 0 (Some (VObj [("type", VStr "input"); ("data", VStr "ls")]));
     PtyData 0 "out"; WsMessage 0 (Some (VObj [("cols", VNum 200)]))] s'))
  = Some (80, 30).
Proof.
  intros hst s'.
  refine (proj2 (proj2 (initial_size_fixed hst "0.4fzyo82mvyr" (VStr "cols=200")
                          4242 _ init eq_refl eq_refl _))).
  repeat constructor.
Defined.

(** ** Shutdown *)

(** Only the callback of [wss.close] ends the process. *)
Lemma halted_only_by_listener hst e s :
  halted s = None ->
  halted (handle hst e s) <> None ->
  e = WssClosed /\ wss_callbacks s <> 0%nat.
Proof.
  intros Hrun. unfold handle. rewrite Hrun.
  destruct e as [rnd36 req res|c0|c0 parsed|c0|c0|h0 data|h0 args| |].
  - destruct (wss_closing s); [congruence|].
    unfold on_connection. destruct res; simpl; congruence.
  - simpl. congruence.
  - destruct (conns s !! c0) as [k0|]; [|congruence].
    destruct (spawned k0); [|congruence].
    rewrite (proj2 (proj2 (on_message_frame c0 parsed s))). congruence.
  - destruct (conns s !! c0) as [k0|]; [|congruence].
    unfold on_close. rewrite (proj2 (release_frame _ _)). simpl. congruence.
  - destruct (conns s !! c0) as [k0|]; [|congruence].
    unfold on_error. rewrite (proj2 (release_frame _ _)). simpl. congruence.
  - destruct (conns s !! h0) as [k0|]; [|congruence].
    destruct (spawned k0); [|congruence].
    unfold on_data. destruct (is_open (readyState k0)); simpl; congruence.
  - destruct (conns s !! h0) as [k0|]; [|congruence].
    destruct (spawned k0); [|congruence].
    unfold on_exit. destruct (is_open (readyState k0)); simpl; congruence.
  - unfold on_sigint, wss_close. simpl.
    rewrite (proj1 (proj2 (proj2 (kill_each_frame _ _)))). simpl. congruence.
  - destruct (wss_callbacks s); [congruence|]. intros _. split; [reflexivity | lia].
Qed.

Lemma effects_drain (entries : list (string * nat)) :
  effects (flat_map (fun e : string * nat =>
                       [Console (LogKilling (fst e)); PtyKill (snd e)]) entries)
  = map (fun e : string * nat => PtyKill (snd e)) entries.
Proof.
  unfold effects. induction entries as [|[id h] rest IH]; simpl;
    [reflexivity | now f_equal].
Qed.

(** C6.  The SIGINT listener calls [kill] on the terminal of every entry of
    [terminals], in the order of the map, and calls [wss.close] after the
    last of them; it does not end the process.  The process ends only in the
    callback of [wss.close], and does end there, with code 0. *)
Theorem shutdown_kills_then_closes (hst : host) (s : state) :
  halted s = None ->
  let s' := handle hst Sigint s in
  let drain :=
    flat_map (fun e : string * nat => [Console (LogKilling (fst e)); PtyKill (snd e)])
             (terminals s) in
  calls s' = calls s ++ [Console LogShuttingDown] ++ drain ++ [WssClose] /\
  effects drain = map (fun e : string * nat => PtyKill (snd e)) (terminals s) /\
  (forall id h, JsMap.get (terminals s) id = Some h -> In (PtyKill h) drain) /\
  halted s' = None /\
  wss_closing s' = true /\
  (forall e t, halted t = None -> halted (handle hst e t) <> None ->
               e = WssClosed /\ wss_callbacks t <> 0%nat) /\
  halted (handle hst WssClosed s') = Some 0.
Proof.
  intros Hrun s' drain.
  destruct (kill_each_frame (terminals s) (console LogShuttingDown s))
    as (ET & EC & EH & EL & EB).
  assert (Hh : halted s' = None).
  { subst s'. unfold handle. rewrite Hrun. unfold on_sigint, wss_close. simpl.
    now rewrite EH. }
  repeat split.
  - subst s' drain. unfold handle. rewrite Hrun. unfold on_sigint, wss_close.
    simpl. rewrite kill_each_calls. simpl. now rewrite <- !app_assoc.
  - apply effects_drain.
  - intros id h Hget. apply JsMapFacts.get_Some_In in Hget.
    subst drain. apply in_flat_map. exists (id, h). split; [exact Hget|].
    simpl. tauto.
  - exact Hh.
  - subst s'. unfold handle. now rewrite Hrun.
  - now apply (halted_only_by_listener hst e t).
  - now apply (halted_only_by_listener hst e t).
  - unfold handle at 1. rewrite Hh.
    subst s'. unfold handle. rewrite Hrun. reflexivity.
Qed.

(** A witness: two sessions are open when SIGINT arrives. *)
Lemma shutdown_kills_then_closes_witness :
  let hst := Host "linux" [] "/" in
  let s := run hst [Connection "0.4fzyo82mvyr" VNull (SpawnOk 4242);
                    Connection "0.k2j5x0q9wab" VNull (SpawnOk 4243)] init in
  effects (calls (handle hst Sigint s))
  = effects (calls s) ++ [PtyKill 0; PtyKill 1; WssClose].
Proof.
  intros hst s.
  rewrite (proj1 (shutdown_kills_then_closes hst s eq_refl)).
  reflexivity.
Defined.

(** ** Termination of a session *)

Lemma release_calls k s :
  calls (release k s)
  = calls s ++ match JsMap.get (terminals s) (terminalId k) with
               | Some terminal => [PtyKill terminal]
               | None => []
               end.
Proof.
  unfold release. destruct (JsMap.get (terminals s) (terminalId k)); simpl;
    [reflexivity | now rewrite app_nil_r].
Qed.

(** The transport listeners ('close' and 'error') as one turn of the loop:
    the console line, then [kill] and [delete] when the id is in the map. *)
Lemma handle_transport_end hst c k e s :
  halted s = None ->
  conns s !! c = Some k ->
  e = WsClosed c \/ e = WsError c ->
  let s' := handle hst e s in
  (exists line, calls s' = calls s ++ [Console line] ++
      match JsMap.get (terminals s) (terminalId k) with
      | Some terminal => [PtyKill terminal]
      | None => []
      end) /\
  terminals s' = JsMap.delete (terminals s) (terminalId k) /\
  halted s' = None /\
  (exists k', conns s' !! c = Some k' /\ terminalId k' = terminalId k /\
              spawned k' = spawned k /\ is_open (readyState k') = false).
Proof.
  intros Hrun Hk [-> | ->]; cbn zeta; unfold handle; rewrite Hrun, Hk.
  - unfold on_close. rewrite release_calls, release_terminals.
    rewrite (proj1 (release_frame _ _)), (proj2 (release_frame _ _)). simpl.
    split; [exists LogDisconnected; now rewrite <- app_assoc|].
    repeat split; [exact Hrun|].
    exists (set_readyState CLOSED k). rewrite list_lookup_alter_eq, Hk.
    now repeat split.
  - unfold on_error. rewrite release_calls, release_terminals.
    rewrite (proj1 (release_frame _ _)), (proj2 (release_frame _ _)). simpl.
    split; [exists ErrorWebSocket; now rewrite <- app_assoc|].
    repeat split; [exact Hrun|].
    exists (start_closing k). rewrite list_lookup_alter_eq, Hk.
    split; [reflexivity|]. unfold start_closing.
    destruct (readyState k) eqn:E; simpl; rewrite ?E; now repeat split.
Qed.

(** The exit listener as one turn of the loop. *)
Lemma handle_exit hst c k args s :
  halted s = None ->
  conns s !! c = Some k ->
  spawned k = true ->
  let s' := handle hst (PtyExit c args) s in
  let code := nth 0 args VUndefined in
  let signal := nth 1 args VUndefined in
  calls s' = calls s ++ [Console (LogExit code signal)] ++
    (if is_open (readyState k)
     then [WsSend c (JSON_stringify (exit_envelope code signal)); WsClose c]
     else []) /\
  terminals s' = JsMap.delete (terminals s) (terminalId k) /\
  halted s' = None /\
  (exists k', conns s' !! c = Some k' /\ terminalId k' = terminalId k /\
              spawned k' = spawned k /\ exited k' = true /\
              is_open (readyState k') = false).
Proof.
  intros Hrun Hk Hsp. cbn zeta. unfold handle. rewrite Hrun, Hk, Hsp.
  unfold on_exit. destruct (is_open (readyState k)) eqn:Hopen; simpl.
  - split; [now rewrite <- !app_assoc|]. repeat split; [exact Hrun|].
    exists (start_closing (set_exited k)).
    rewrite !list_lookup_alter_eq, Hk. split; [reflexivity|].
    unfold start_closing. simpl. rewrite Hopen. now repeat split.
  - split; [reflexivity|]. repeat split; [exact Hrun|].
    exists (set_exited k). rewrite list_lookup_alter_eq, Hk.
    now repeat split.
Qed.






(** C2.  node-pty's exit event calls its listener with one object that
    holds the exit code and the signal, while the listener names two
    parameters, [code] and [signal].  So [code] is the whole object and
    [signal] is [undefined].  When the shell of a fresh session exits by
    itself with code 0 on an [OPEN] socket, the one envelope sent has that
    object as its code and no signal property; it is not
    [{"type":"exit","code":0,"signal":null}], and no such envelope reaches
    the client.  The rest is as the claim says: [ws.close()] follows and the
    id leaves [terminals]. *)
Theorem exit_envelope_carries_event_object (hst : host) (rnd36 : string)
    (req : value) (pid signal : Z) :
  let s := handle hst (Connection rnd36 req (SpawnOk pid)) init in
  let ev := VObj [("exitCode", VNum 0); ("signal", VNum signal)] in
  let s' := handle hst (PtyExit 0 [ev]) s in
  calls s' = calls s ++
    [Console (LogExit ev VUndefined);
     WsSend 0 (VObj [("type", VStr "exit"); ("code", ev)]);
     WsClose 0] /\
  sent_to 0 (calls s')
  = [VObj [("type", VStr "connected"); ("terminalId", VStr (generateId rnd36));
           ("shell", VStr (select_shell hst)); ("pid", VNum pid)];
     VObj [("type", VStr "exit"); ("code", ev)]] /\
  ~ In (VObj [("type", VStr "exit"); ("code", VNum 0); ("signal", VNull)])
       (sent_to 0 (calls s')) /\
  JsMap.get (terminals s') (generateId rnd36) = None.
Proof.
  intros s ev s'.
  destruct (handle_exit hst 0%nat (Conn (generateId rnd36) OPEN true false)
              [ev] s eq_refl eq_refl eq_refl) as (Hcalls & Hterm & _).
  fold s' in Hcalls, Hterm. cbn zeta in Hcalls.
  assert (Hsent : sent_to 0 (calls s')
    = [VObj [("type", VStr "connected"); ("terminalId", VStr (generateId rnd36));
             ("shell", VStr (select_shell hst)); ("pid", VNum pid)];
       VObj [("type", VStr "exit"); ("code", ev)]])
    by (rewrite Hcalls, sent_to_app; reflexivity).
  split; [|split; [|split]].
  - exact Hcalls.
  - exact Hsent.
  - rewrite Hsent. intros [H | [H | []]]; discriminate H.
  - rewrite Hterm. apply JsMapFacts.get_delete_eq.
Qed.

(** ** Session ids *)

(** C9.  Two connections whose random draws differ after the eleventh
    character get the same id: [substr(2, 9)] keeps nine characters.  The
    second [terminals.set] replaces the entry of the first session, so two
    live sessions share one id and one entry. *)
Theorem generateId_collides :
  let hst := Host "linux" [] "/" in
  let draw1 := "0.4fzyo82mvyr" in
  let draw2 := "0.4fzyo82mvzk" in
  let s := run hst [Connection draw1 VNull (SpawnOk 4242);
                    Connection draw2 VNull (SpawnOk 4243)] init in
  draw1 <> draw2 /\
  generateId draw1 = generateId draw2 /\
  conns s = [Conn "4fzyo82mv" OPEN true false; Conn "4fzyo82mv" OPEN true false] /\
  terminals s = [("4fzyo82mv", 1%nat)].
Proof. cbn zeta. repeat split. discriminate. Qed.

(** C1.  After an id collision the map loses a live session: the second
    client disconnects, the shared id is deleted, and the first session,
    with its shell running and its socket [OPEN], is not in [terminals].
    When its own socket closes later no [kill] is called on its terminal. *)
Theorem ownership_lost_after_collision :
  let hst := Host "linux" [] "/" in
  let s := run hst [Connection "0.4fzyo82mvyr" VNull (SpawnOk 4242);
                    Connection "0.4fzyo82mvzk" VNull (SpawnOk 4243);
                    WsClosed 1] init in
  conns s !! 0%nat = Some (Conn "4fzyo82mv" OPEN true false) /\
  count_calls (is_kill 0) (calls s) = 0%nat /\
  JsMap.get (terminals s) "4fzyo82mv" = None /\
  count_calls (is_kill 0) (calls (handle hst (WsClosed 0) s)) = 0%nat.
Proof. cbn zeta. repeat split. Qed.

(** ** Ownership when the ids are pairwise distinct *)


Lemma ids_alter (f : conn -> conn) c (l : list conn) :
  (forall x, terminalId (f x) = terminalId x) ->
  terminalId <$> alter f c l = terminalId <$> l.
Proof.
  intros Hf. rewrite (list_fmap_alter terminalId f id).
  - now apply list_alter_id.
  - apply Forall_true. exact Hf.
Qed.

Lemma start_closing_id x : terminalId (start_closing x) = terminalId x.
Proof. apply start_closing_stable. Qed.

Lemma start_closing_not_open x : is_open (readyState (start_closing x)) = false.
Proof.
  unfold start_closing. destruct (readyState x) eqn:E; simpl; now rewrite ?E.
Qed.

(** Events only append to the list of ids. *)
Lemma ids_step hst e s : exists extra, ids (handle hst e s) = ids s ++ extra.
Proof.
  unfold handle, ids.
  destruct (halted s) eqn:Hrun; [exists []; now rewrite app_nil_r|].
  destruct e as [rnd36 req res|c0|c0 parsed|c0|c0|h0 data|h0 args| |].
  - destruct (wss_closing s) eqn:Hl; [exists []; now rewrite app_nil_r|].
    destruct res as [pid|message].
    + destruct (handle_connection_ok hst rnd36 req pid s Hrun Hl) as [_ EC].
      unfold handle in EC. rewrite Hrun, Hl in EC. rewrite EC, fmap_app.
      now eexists.
    + destruct (handle_connection_fail hst rnd36 req message s Hrun Hl) as [_ EC].
      unfold handle in EC. rewrite Hrun, Hl in EC. rewrite EC, fmap_app.
      now eexists.
  - exists []. simpl. rewrite ids_alter by apply start_closing_id.
    now rewrite app_nil_r.
  - exists []. rewrite app_nil_r.
    destruct (conns s !! c0) as [k0|]; [|reflexivity].
    destruct (spawned k0); [|reflexivity].
    now rewrite (proj1 (proj2 (on_message_frame c0 parsed s))).
  - exists []. rewrite app_nil_r.
    destruct (conns s !! c0) as [k0|]; [|reflexivity].
    unfold on_close. rewrite (proj1 (release_frame _ _)). simpl.
    now rewrite ids_alter.
  - exists []. rewrite app_nil_r.
    destruct (conns s !! c0) as [k0|]; [|reflexivity].
    unfold on_error. rewrite (proj1 (release_frame _ _)). simpl.
    now rewrite ids_alter by apply start_closing_id.
  - exists []. rewrite app_nil_r.
    destruct (conns s !! h0) as [k0|]; [|reflexivity].
    destruct (spawned k0); [|reflexivity].
    unfold on_data. now destruct (is_open (readyState k0)).
  - exists []. rewrite app_nil_r.
    destruct (conns s !! h0) as [k0|]; [|reflexivity].
    destruct (spawned k0); [|reflexivity].
    unfold on_exit. destruct (is_open (readyState k0)); simpl;
      rewrite ?(ids_alter start_closing) by apply start_closing_id;
      now rewrite ids_alter.
  - exists []. rewrite app_nil_r. unfold on_sigint, wss_close. simpl.
    now rewrite (proj1 (proj2 (kill_each_frame _ _))).
  - exists []. rewrite app_nil_r. now destruct (wss_callbacks s).
Qed.

Lemma ids_injective (l : list conn) i j a b :
  NoDup (terminalId <$> l) ->
  l !! i = Some a -> l !! j = Some b -> terminalId a = terminalId b -> i = j.
Proof.
  intros Hnd Ha Hb Hab.
  apply (NoDup_lookup (terminalId <$> l) i j (terminalId a) Hnd).
  - now rewrite list_lookup_fmap, Ha.
  - now rewrite list_lookup_fmap, Hb, Hab.
Qed.


(** After the id of [c0] was deleted, the other sessions are still found. *)
Lemma complete_after_delete s c0 k0 (cs : list conn) :
  registry_complete s ->
  NoDup (ids s) ->
  conns s !! c0 = Some k0 ->
  (forall c k, cs !! c = Some k ->
     (c <> c0 /\ conns s !! c = Some k) \/
     (c = c0 /\ (exited k = true \/ is_open (readyState k) = false))) ->
  forall c k, cs !! c = Some k ->
    spawned k = true -> exited k = false -> readyState k = OPEN ->
    JsMap.get (JsMap.delete (terminals s) (terminalId k0)) (terminalId k) = Some c.
Proof.
  intros Hinv Hnd Hk0 Hcs c k Hk Hsp Hex Hopen.
  destruct (Hcs c k Hk) as [[Hne Hold] | [-> [Hex' | Hclosed]]].
  - rewrite JsMapFacts.get_delete_ne; [now apply Hinv|].
    intros Hid. apply Hne. symmetry.
    now apply (ids_injective (conns s) c0 c k0 k Hnd).
  - congruence.
  - rewrite Hopen in Hclosed. discriminate.
Qed.

Lemma registry_complete_step hst e s :
  NoDup (ids (handle hst e s)) ->
  NoDup (ids s) ->
  registry_complete s -> registry_complete (handle hst e s).
Proof.
  intros Hnd' Hnd Hinv. revert Hnd'. unfold handle, ids.
  destruct (halted s) eqn:Hrun; [intros _; exact Hinv|].
  destruct e as [rnd36 req res|c0|c0 parsed|c0|c0|h0 data|h0 args| |].
  - destruct (wss_closing s) eqn:Hl; [intros _; exact Hinv|].
    destruct res as [pid|message].
    + destruct (handle_connection_ok hst rnd36 req pid s Hrun Hl) as [ET EC].
      unfold handle in ET, EC. rewrite Hrun, Hl in ET, EC.
      rewrite EC, fmap_app. intros Hnd'.
      intros c k Hk Hsp Hex Hopen. rewrite ET. rewrite EC in Hk.
      apply lookup_app_Some in Hk as [Hk | [Hge Hk]].
      * rewrite JsMapFacts.get_set_ne; [now apply Hinv|].
        intros Hid. apply NoDup_app in Hnd' as (_ & Hdisj & _).
        apply (Hdisj (terminalId k)).
        -- apply list_elem_of_fmap. exists k. split; [reflexivity|].
           eapply list_elem_of_lookup_2, Hk.
        -- simpl. rewrite <- Hid. apply list_elem_of_here.
      * apply list_lookup_singleton_Some in Hk as [Hz <-]. simpl.
        rewrite JsMapFacts.get_set_eq. f_equal. lia.
    + destruct (handle_connection_fail hst rnd36 req message s Hrun Hl) as [ET EC].
      unfold handle in ET, EC. rewrite Hrun, Hl in ET, EC.
      intros _.
      intros c k Hk Hsp Hex Hopen. rewrite ET. rewrite EC in Hk.
      apply lookup_app_Some in Hk as [Hk | [Hge Hk]]; [now apply Hinv|].
      apply list_lookup_singleton_Some in Hk as [_ <-]. discriminate Hsp.
  - intros _ c k Hk Hsp Hex Hopen. simpl in Hk |- *.
    rewrite list_lookup_alter in Hk. destruct (decide (c0 = c)) as [->|].
    + destruct (conns s !! c) as [k1|]; [|discriminate].
      injection Hk as <-.
      pose proof (start_closing_not_open k1) as Hn. rewrite Hopen in Hn.
      discriminate.
    + now apply Hinv.
  - intros _. destruct (conns s !! c0) as [k0|]; [|exact Hinv].
    destruct (spawned k0); [|exact Hinv].
    destruct (on_message_frame c0 parsed s) as (ET & EC & _).
    intros c k. rewrite ET, EC. apply Hinv.
  - intros _. destruct (conns s !! c0) as [k0|] eqn:Hk0; [|exact Hinv].
    intros c k. unfold on_close.
    rewrite release_terminals, (proj1 (release_frame _ _)). simpl.
    apply (complete_after_delete s c0 k0); try assumption.
    intros c1 k1. rewrite list_lookup_alter.
    destruct (decide (c0 = c1)) as [->|Hne].
    * rewrite Hk0. intros [= <-]. right. now repeat split; right.
    * intros Hk1. left. split; [congruence | exact Hk1].
  - intros _. destruct (conns s !! c0) as [k0|] eqn:Hk0; [|exact Hinv].
    intros c k. unfold on_error.
    rewrite release_terminals, (proj1 (release_frame _ _)). simpl.
    apply (complete_after_delete s c0 k0); try assumption.
    intros c1 k1. rewrite list_lookup_alter.
    destruct (decide (c0 = c1)) as [->|Hne].
    * rewrite Hk0. intros [= <-]. right. split; [reflexivity|]. right.
      apply start_closing_not_open.
    * intros Hk1. left. split; [congruence | exact Hk1].
  - intros _. destruct (conns s !! h0) as [k0|]; [|exact Hinv].
    destruct (spawned k0); [|exact Hinv].
    unfold on_data. destruct (is_open (readyState k0)); exact Hinv.
  - intros _. destruct (conns s !! h0) as [k0|] eqn:Hk0; [|exact Hinv].
    destruct (spawned k0); [|exact Hinv].
    intros c k. unfold on_exit.
    destruct (is_open (readyState k0)); simpl.
    + rewrite list_alter_alter_eq.
      apply (complete_after_delete s h0 k0); try assumption.
      intros c1 k1. rewrite list_lookup_alter.
      destruct (decide (h0 = c1)) as [->|Hne].
      * rewrite Hk0. intros [= <-]. right. split; [reflexivity|]. right.
        apply start_closing_not_open.
      * intros Hk1. left. split; [congruence | exact Hk1].
    + apply (complete_after_delete s h0 k0); try assumption.
      intros c1 k1. rewrite list_lookup_alter.
      destruct (decide (h0 = c1)) as [->|Hne].
      * rewrite Hk0. intros [= <-]. right. split; [reflexivity|]. now left.
      * intros Hk1. left. split; [congruence | exact Hk1].
  - intros _ c k. unfold on_sigint, wss_close. simpl.
    destruct (kill_each_frame (terminals s) (console LogShuttingDown s))
      as (ET & EC & _).
    rewrite ET, EC. apply Hinv.
  - intros _. destruct (wss_callbacks s); exact Hinv.
Qed.

Lemma registry_complete_reachable hst s :
  reachable hst s -> NoDup (ids s) -> registry_complete s.
Proof.
  induction 1 as [|s e _ IH]; intros Hnd.
  - intros c k Hk. discriminate Hk.
  - assert (Hnd0 : NoDup (ids s)).
    { destruct (ids_step hst e s) as [extra E]. rewrite E in Hnd.
      now apply NoDup_app in Hnd as (? & _). }
    apply registry_complete_step; auto.
Qed.

(** X17.  Ownership, for ids that are pairwise distinct.  In every state the
    server reaches: a session whose shell runs and whose socket is [OPEN] is
    in [terminals] with its own terminal; and a session that is in
    [terminals] had a successful spawn, its exit was not reported and its
    socket did not report 'close'.  Between the two lies the teardown
    window, a socket that is [CLOSING]. *)
Theorem ownership_with_distinct_ids (hst : host) (s : state) (c : nat) (k : conn) :
  reachable hst s ->
  NoDup (ids s) ->
  conns s !! c = Some k ->
  (spawned k = true -> exited k = false -> readyState k = OPEN ->
   JsMap.get (terminals s) (terminalId k) = Some c) /\
  (JsMap.get (terminals s) (terminalId k) = Some c ->
   spawned k = true /\ exited k = false /\ readyState k <> CLOSED).
Proof.
  intros Hreach Hnd Hk. split.
  - now apply (registry_complete_reachable hst s Hreach Hnd).
  - intros Hget.
    destruct (registry_sound_reachable hst s Hreach _ _ Hget)
      as (k' & Hk' & _ & Hrest).
    rewrite Hk in Hk'. injection Hk' as <-. exact Hrest.
Qed.


(** A witness: two sessions with distinct ids, the second one gone. *)
Lemma ownership_with_distinct_ids_witness :
  let hst := Host "linux" [] "/" in
  let s := run hst [Connection "0.4fzyo82mvyr" VNull (SpawnOk 4242);
                    Connection "0.k2j5x0q9wab" VNull (SpawnOk 4243);
                    WsClosed 1] init in
  JsMap.get (terminals s) "4fzyo82mv" = Some 0%nat.
Proof.
  intros hst s.
  refine (proj1 (ownership_with_distinct_ids hst s 0%nat
                   (Conn "4fzyo82mv" OPEN true false) _ _ _) _ _ _);
    try reflexivity.
  - apply (reachable_run hst _ init), reachable_init.
  - cbn. apply NoDup_cons. split; [|apply NoDup_singleton].
    intros Hin. apply list_elem_of_singleton in Hin. discriminate Hin.
Defined.

(** A resize envelope reaches the terminal: 120 columns, 40 rows. *)
Example resize_round_trip :
  let hst := Host "linux" [] "/" in
  let s := handle hst (Connection "0.4fzyo82mvyr" VNull (SpawnOk 4242)) init in
  let e := WsMessage 0 (Some (VObj [("type", VStr "resize");
                                    ("cols", VNum 120); ("rows", VNum 40)])) in
  dims_of 0 (calls (handle hst e s)) = Some (120, 40).
Proof. reflexivity. Qed.

(** ** Where the calls of one turn come from *)

Lemma drain_emitted hst s (entries : list (string * nat)) :
  (forall e, In e entries -> In e (terminals s)) ->
  Forall (emitted_by hst Sigint s)
    (flat_map (fun e : string * nat => [Console (LogKilling (fst e)); PtyKill (snd e)])
              entries).
Proof.
  induction entries as [|[id h] rest IH]; intros Hsub; simpl.
  - apply List.Forall_nil.
  - apply List.Forall_cons; [exact I|]. apply List.Forall_cons.
    + left. split; [reflexivity|]. exists id. apply Hsub. now left.
    + apply IH. intros e He. apply Hsub. now right.
Qed.

(** A turn that makes no call. *)
Ltac no_calls :=
  exists []; split; [now rewrite app_nil_r | apply List.Forall_nil].

(** Splits a goal on a list of calls into one goal per call, and closes
    those that follow from the context. *)
Ltac each_call :=
  repeat first [apply List.Forall_nil | apply List.Forall_cons];
  simpl; eauto 12.

(** One turn of the loop appends calls to the log, and each appended call
    comes from the listener of that event. *)
Lemma handle_emits hst e s :
  exists suffix, calls (handle hst e s) = calls s ++ suffix /\
                 Forall (emitted_by hst e s) suffix.
Proof.
  unfold handle.
  destruct (halted s) eqn:Hrun; [no_calls|].
  destruct e as [rnd36 req res|c0|c0 parsed|c0|c0|h0 data|h0 args| |].
  - destruct (wss_closing s) eqn:Hl; [no_calls|].
    unfold on_connection. destruct res as [pid|message]; simpl.
    + eexists. split; [now rewrite <- !app_assoc|]. each_call.
    + eexists. split; [now rewrite <- !app_assoc|]. each_call.
  - exists []. split; [simpl; now rewrite app_nil_r | constructor].
  - destruct (conns s !! c0) as [k0|] eqn:Hk0; [|no_calls].
    destruct (spawned k0) eqn:Hsp0; [|no_calls].
    unfold on_message.
    destruct parsed as [data|];
      [|exists [Console ErrorMessage]; split; [reflexivity | each_call]].
    destruct (get_prop data "type") as [t|] eqn:Ht;
      [|exists [Console ErrorMessage]; split; [reflexivity | each_call]].
    destruct (strict_eq_string t "input") eqn:Hin.
    { apply strict_eq_string_true in Hin. subst t.
      destruct (get_prop data "data") as [d|] eqn:Hd;
        [|exists [Console ErrorMessage]; split; [reflexivity | each_call]].
      destruct (write_accepts d); simpl.
      - exists [PtyWrite c0 d]. split; [reflexivity | each_call].
      - exists [PtyWrite c0 d; Console ErrorMessage].
        split; [now rewrite <- app_assoc | each_call]. }
    destruct (strict_eq_string t "resize") eqn:Hre;
      [|eexists [Console _]; split; [reflexivity | each_call]].
    apply strict_eq_string_true in Hre. subst t.
    destruct (get_prop data "cols") as [cols|] eqn:Hc;
      [|exists [Console ErrorMessage]; split; [reflexivity | each_call]].
    destruct (get_prop data "rows") as [rows|] eqn:Hr;
      [|exists [Console ErrorMessage]; split; [reflexivity | each_call]].
    destruct (resize_accepts cols rows); simpl;
      (eexists [PtyResize c0 cols rows; Console _];
       split; [now rewrite <- app_assoc | each_call]).
  - destruct (conns s !! c0) as [k0|] eqn:Hk0; [|no_calls].
    unfold on_close. rewrite release_calls. simpl. rewrite <- app_assoc.
    eexists. split; [reflexivity|].
    destruct (JsMap.get (terminals s) (terminalId k0)) eqn:Hget; each_call.
  - destruct (conns s !! c0) as [k0|] eqn:Hk0; [|no_calls].
    unfold on_error. rewrite release_calls. simpl. rewrite <- app_assoc.
    eexists. split; [reflexivity|].
    destruct (JsMap.get (terminals s) (terminalId k0)) eqn:Hget; each_call.
  - destruct (conns s !! h0) as [k0|] eqn:Hk0; [|no_calls].
    destruct (spawned k0); [|no_calls].
    unfold on_data. destruct (readyState k0) eqn:Hrs; simpl; try no_calls.
    eexists [WsSend h0 _]. split; [reflexivity | each_call].
  - destruct (conns s !! h0) as [k0|] eqn:Hk0; [|no_calls].
    destruct (spawned k0); [|no_calls].
    unfold on_exit. destruct (readyState k0) eqn:Hrs; simpl;
      try (eexists [Console _]; split; [reflexivity | each_call]).
    eexists [Console _; WsSend h0 _; WsClose h0].
    split; [now rewrite <- !app_assoc | each_call].
  - unfold on_sigint, wss_close. simpl. rewrite kill_each_calls. simpl.
    eexists. split; [rewrite <- !app_assoc; reflexivity|].
    apply List.Forall_cons; [exact I|]. apply Forall_app. split.
    + apply drain_emitted. auto.
    + each_call.
  - destruct (wss_callbacks s); [no_calls|].
    unfold on_wss_closed. simpl.
    eexists [Console _; ProcessExit 0]. split; [now rewrite <- app_assoc|].
    each_call.
Qed.

(** How one turn of the loop changes a connection: by one of the updates the
    libraries and [ws.close()] make. *)
Lemma conn_step_shape hst e s c k :
  conns s !! c = Some k ->
  exists k', conns (handle hst e s) !! c = Some k' /\
    (k' = k \/ k' = start_closing k \/ k' = set_readyState CLOSED k \/
     k' = set_exited k \/ k' = start_closing (set_exited k)).
Proof.
  intros Hk. unfold handle.
  destruct (halted s) eqn:Hrun; [exists k; auto|].
  destruct e as [rnd36 req res|c0|c0 parsed|c0|c0|h0 data|h0 args| |].
  - destruct (wss_closing s) eqn:Hl; [exists k; auto|].
    destruct res as [pid|message].
    + destruct (handle_connection_ok hst rnd36 req pid s Hrun Hl) as [_ E].
      unfold handle in E. rewrite Hrun, Hl in E. rewrite E.
      exists k. split; [now apply lookup_app_l_Some | auto].
    + destruct (handle_connection_fail hst rnd36 req message s Hrun Hl) as [_ E].
      unfold handle in E. rewrite Hrun, Hl in E. rewrite E.
      exists k. split; [now apply lookup_app_l_Some | auto].
  - simpl. rewrite list_lookup_alter. destruct (decide (c0 = c)) as [->|].
    + rewrite Hk. simpl. eauto.
    + eauto.
  - destruct (conns s !! c0) as [k0|]; [|exists k; auto].
    destruct (spawned k0); [|exists k; auto].
    rewrite (proj1 (proj2 (on_message_frame c0 parsed s))). eauto.
  - destruct (conns s !! c0) as [k0|]; [|exists k; auto].
    unfold on_close. rewrite (proj1 (release_frame _ _)). simpl.
    rewrite list_lookup_alter. destruct (decide (c0 = c)) as [->|].
    + rewrite Hk. simpl. eauto 6.
    + eauto.
  - destruct (conns s !! c0) as [k0|]; [|exists k; auto].
    unfold on_error. rewrite (proj1 (release_frame _ _)). simpl.
    rewrite list_lookup_alter. destruct (decide (c0 = c)) as [->|].
    + rewrite Hk. simpl. eauto.
    + eauto.
  - destruct (conns s !! h0) as [k0|]; [|exists k; auto].
    destruct (spawned k0); [|exists k; auto].
    unfold on_data. destruct (is_open (readyState k0)); eauto.
  - destruct (conns s !! h0) as [k0|]; [|exists k; auto].
    destruct (spawned k0); [|exists k; auto].
    unfold on_exit. destruct (is_open (readyState k0)); simpl.
    + rewrite list_alter_alter_eq, list_lookup_alter.
      destruct (decide (h0 = c)) as [->|]; [rewrite Hk; simpl|]; eauto 8.
    + rewrite list_lookup_alter.
      destruct (decide (h0 = c)) as [->|]; [rewrite Hk; simpl|]; eauto 8.
  - unfold on_sigint, wss_close. simpl.
    rewrite (proj1 (proj2 (kill_each_frame _ _))). eauto.
  - destruct (wss_callbacks s); eauto.
Qed.

(** A socket that has left [OPEN] stays out of it. *)
Lemma not_open_step hst e s c k :
  conns s !! c = Some k -> is_open (readyState k) = false ->
  exists k', conns (handle hst e s) !! c = Some k' /\
             is_open (readyState k') = false.
Proof.
  intros Hk Hno.
  destruct (conn_step_shape hst e s c k Hk) as (k' & Hk' & Hshape).
  exists k'. split; [exact Hk'|].
  destruct Hshape as [-> | [-> | [-> | [-> | ->]]]];
    try exact Hno; try reflexivity; apply start_closing_not_open.
Qed.

(** The list of connections never shrinks. *)
Lemma conns_length_step hst e s :
  (length (conns s) <= length (conns (handle hst e s)))%nat.
Proof.
  destruct (ids_step hst e s) as [extra E].
  apply (f_equal length) in E. unfold ids in E.
  rewrite length_app, !length_fmap in E. lia.
Qed.

(** ** Output of the terminal *)

Lemma handle_data hst c k data s :
  halted s = None ->
  conns s !! c = Some k ->
  spawned k = true ->
  handle hst (PtyData c data) s
  = if is_open (readyState k) then ws_send c (output_envelope data) s else s.
Proof.
  intros Hrun Hk Hsp. unfold handle. now rewrite Hrun, Hk, Hsp.
Qed.

(** X1.  The output of a terminal goes to its own socket as one output
    envelope per chunk, the chunk unchanged and in the order produced, while
    the socket is [OPEN]; on a socket that is not [OPEN] every chunk is
    dropped.  Nothing else is called and nothing else changes. *)
Theorem output_forwarded_in_order (hst : host) (c : nat) (k : conn)
    (chunks : list string) (s : state) :
  halted s = None ->
  conns s !! c = Some k ->
  spawned k = true ->
  let s' := run hst (map (PtyData c) chunks) s in
  calls s' = calls s ++
    (if is_open (readyState k)
     then map (fun d => WsSend c (VObj [("type", VStr "output"); ("data", VStr d)]))
              chunks
     else []) /\
  terminals s' = terminals s /\
  conns s' = conns s.
Proof.
  intros Hrun Hk Hsp. cbn zeta. revert s Hrun Hk.
  induction chunks as [|d ds IH]; intros s Hrun Hk.
  - simpl. destruct (is_open (readyState k)); now rewrite app_nil_r.
  - rewrite map_cons, run_cons, (handle_data hst c k d s Hrun Hk Hsp).
    destruct (is_open (readyState k)) eqn:Hopen.
    + destruct (IH (ws_send c (output_envelope d) s) Hrun Hk) as (E1 & E2 & E3).
      rewrite E1, E2, E3. split; [|now split].
      change (calls (ws_send c (output_envelope d) s))
        with (calls s ++ [WsSend c (VObj [("type", VStr "output"); ("data", VStr d)])]).
      now rewrite <- app_assoc.
    + destruct (IH s Hrun Hk) as (E1 & E2 & E3).
      now rewrite E1, E2, E3.
Qed.

(** A witness: two chunks on an open session. *)
Lemma output_forwarded_in_order_witness :
  let hst := Host "linux" [] "/" in
  let s := handle hst (Connection "0.4fzyo82mvyr" VNull (SpawnOk 4242)) init in
  sent_to 0 (calls (run hst [PtyData 0 "$ "; PtyData 0 "hi"] s))
  = sent_to 0 (calls s) ++
    [VObj [("type", VStr "output"); ("data", VStr "$ ")];
     VObj [("type", VStr "output"); ("data", VStr "hi")]].
Proof.
  intros hst s.
  pose proof (proj1 (output_forwarded_in_order hst 0%nat
                       (Conn "4fzyo82mv" OPEN true false) ["$ "; "hi"] s
                       eq_refl eq_refl eq_refl)) as E.
  cbn [map] in E. rewrite E. reflexivity.
Defined.

(** ** The environment and the id of a spawn *)

(** X3.  The environment given to [pty.spawn] has TERM set to
    xterm-256color and COLORTERM to truecolor, whatever the host had for
    them, and every other variable as the host has it. *)
Theorem spawn_env_terminal_variables (hst : host) :
  let env := opt_env (spawn_options_of hst) in
  JsMap.get env "TERM" = Some "xterm-256color" /\
  JsMap.get env "COLORTERM" = Some "truecolor" /\
  (forall name, name <> "TERM" -> name <> "COLORTERM" ->
                JsMap.get env name = JsMap.get (process_env hst) name).
Proof.
  cbn zeta. unfold spawn_options_of. simpl. repeat split.
  - rewrite JsMapFacts.get_set_ne by discriminate.
    apply JsMapFacts.get_set_eq.
  - apply JsMapFacts.get_set_eq.
  - intros name H1 H2.
    rewrite !JsMapFacts.get_set_ne by congruence. reflexivity.
Qed.

(** A witness: the host's TERM is replaced, its PATH is kept. *)
Lemma spawn_env_terminal_variables_witness :
  let hst := Host "linux" [("TERM", "dumb"); ("PATH", "/usr/bin")] "/" in
  let env := opt_env (spawn_options_of hst) in
  JsMap.get env "TERM" = Some "xterm-256color" /\
  JsMap.get env "PATH" = Some "/usr/bin".
Proof.
  intros hst env.
  destruct (spawn_env_terminal_variables hst) as (E1 & _ & E3).
  split; [exact E1|].
  unfold env. rewrite (E3 "PATH"); [reflexivity | discriminate | discriminate].
Defined.

Lemma substring_length (n m : nat) (s : string) :
  String.length (String.substring n m s) = Nat.min m (String.length s - n).
Proof.
  revert n m. induction s as [|ch s IH]; intros n m.
  - destruct n, m; simpl; try reflexivity; now rewrite Nat.min_0_r.
  - destruct n as [|n].
    + destruct m as [|m]; [reflexivity|].
      simpl. rewrite IH. now rewrite Nat.sub_0_r.
    + simpl. apply IH.
Qed.

(** X5.  An id has as many characters as the rendering of the draw has
    after its first two, and nine at most: never more than nine, and none
    at all for a draw rendered in fewer than three characters. *)
Theorem generateId_length (rnd36 : string) :
  String.length (generateId rnd36) = Nat.min 9 (String.length rnd36 - 2) /\
  (String.length (generateId rnd36) <= 9)%nat /\
  ((String.length rnd36 <= 2)%nat -> generateId rnd36 = "").
Proof.
  unfold generateId. pose proof (substring_length 2 9 rnd36) as E.
  repeat split.
  - exact E.
  - rewrite E. apply Nat.le_min_l.
  - intros Hshort.
    assert (Hz : String.length (String.substring 2 9 rnd36) = 0%nat)
      by (rewrite E; lia).
    destruct (String.substring 2 9 rnd36); [reflexivity | discriminate Hz].
Qed.

(** A witness: the draw 0 is rendered as one character and gives the empty
    id. *)
Lemma generateId_length_witness : generateId "0" = "".
Proof.
  apply (proj2 (proj2 (generateId_length "0"))). simpl. lia.
Defined.

(** ** Shutdown leaves the sessions in place *)

Lemma drain_is_silent (c : nat) (entries : list (string * nat)) :
  let drain := flat_map (fun e : string * nat =>
                           [Console (LogKilling (fst e)); PtyKill (snd e)]) entries in
  sent_to c drain = [] /\ count_calls (is_ws_close c) drain = 0%nat.
Proof.
  cbn zeta. unfold count_calls.
  induction entries as [|[id h] rest IH]; simpl; [now split | exact IH].
Qed.

(** X12.  The SIGINT listener removes no entry of [terminals], changes no
    connection, and sends nothing and closes no socket: clients get no
    envelope about the shutdown. *)
Theorem sigint_keeps_sessions (hst : host) (s : state) :
  halted s = None ->
  let s' := handle hst Sigint s in
  terminals s' = terminals s /\
  conns s' = conns s /\
  (forall c, sent_to c (calls s') = sent_to c (calls s)) /\
  (forall c, count_calls (is_ws_close c) (calls s')
             = count_calls (is_ws_close c) (calls s)).
Proof.
  intros Hrun s'.
  destruct (kill_each_frame (terminals s) (console LogShuttingDown s))
    as (ET & EC & _).
  assert (Hcalls : calls s' = calls s ++ [Console LogShuttingDown] ++
            flat_map (fun e : string * nat =>
                        [Console (LogKilling (fst e)); PtyKill (snd e)])
                     (terminals s) ++ [WssClose]).
  { subst s'. unfold handle. rewrite Hrun. unfold on_sigint, wss_close.
    simpl. rewrite kill_each_calls. simpl. now rewrite <- !app_assoc. }
  repeat split.
  - subst s'. unfold handle. rewrite Hrun. unfold on_sigint, wss_close.
    simpl. exact ET.
  - subst s'. unfold handle. rewrite Hrun. unfold on_sigint, wss_close.
    simpl. exact EC.
  - intros c. rewrite Hcalls, !sent_to_app, (proj1 (drain_is_silent c _)).
    simpl. now rewrite app_nil_r.
  - intros c. rewrite Hcalls, !count_calls_app, (proj2 (drain_is_silent c _)).
    unfold count_calls. simpl. lia.
Qed.

(** A witness: one open session at the time of SIGINT. *)
Lemma sigint_keeps_sessions_witness :
  let hst := Host "linux" [] "/" in
  let s := handle hst (Connection "0.4fzyo82mvyr" VNull (SpawnOk 4242)) init in
  terminals (handle hst Sigint s) = [("4fzyo82mv", 0%nat)].
Proof.
  intros hst s.
  rewrite (proj1 (sigint_keeps_sessions hst s eq_refl)). reflexivity.
Defined.

(** ** The page's run button and the server *)

(** X15.  The page sends a command only on the socket of the active tab
    and only when that socket is [OPEN]: with a global missing, no socket
    for the active tab, or a socket in another state, it sends nothing. *)
Theorem command_sent_iff_active_socket_open (w : window) (command : string)
    (tab : Z) :
  (exists text, executeCommandInTerminal w command = TabSend tab text) <->
  (exists socks, websockets w = Some socks /\ activeTabId w = Some tab /\
                 tab_socket socks tab = Some OPEN).
Proof.
  unfold executeCommandInTerminal. split.
  - intros [text H].
    destruct (websockets w) as [socks|]; [|discriminate].
    destruct (activeTabId w) as [tab'|]; [|discriminate].
    destruct (tab_socket socks tab') as [r|] eqn:Hr; [|discriminate].
    destruct r; simpl in H; try discriminate.
    injection H as -> _. now exists socks.
  - intros (socks & -> & -> & ->). simpl. now eexists.
Qed.

(** A witness: the socket of the active tab is closing. *)
Lemma command_sent_iff_active_socket_open_witness :
  ~ exists text,
      executeCommandInTerminal (Window (Some [(1, OPEN); (2, CLOSING)]) (Some 2)) "ls"
      = TabSend 2 text.
Proof.
  intros H.
  apply (proj1 (command_sent_iff_active_socket_open _ "ls" 2)) in H.
  destruct H as (socks & [= <-] & _ & H). discriminate H.
Defined.

(** X16.  A command run from the page reaches the shell followed by one
    line feed: the page sends an input envelope whose data is the command
    and a line feed, and the server writes that data to the terminal of the
    connection as it is.  (The server's [JSON.parse] reads back the document
    the page's [JSON.stringify] wrote.) *)
Theorem page_command_reaches_terminal (hst : host) (w : window)
    (socks : list (Z * ready_state)) (tab : Z) (command : string)
    (c : nat) (k : conn) (s : state) :
  websockets w = Some socks ->
  activeTabId w = Some tab ->
  tab_socket socks tab = Some OPEN ->
  halted s = None ->
  conns s !! c = Some k ->
  spawned k = true ->
  exists text,
    executeCommandInTerminal w command = TabSend tab text /\
    calls (handle hst (WsMessage c (Some text)) s)
    = calls s ++ [PtyWrite c (VStr (command ++ newline)%string)] /\
    stdin_of c (calls (handle hst (WsMessage c (Some text)) s))
    = (stdin_of c (calls s) ++ command ++ newline)%string.
Proof.
  intros Hsocks Htab Hopen Hrun Hk Hsp.
  unfold executeCommandInTerminal. rewrite Hsocks, Htab, Hopen. simpl.
  eexists. split; [reflexivity|].
  assert (Hin : is_input_envelope (command ++ newline)%string
                  (VObj [("type", VStr "input");
                         ("data", VStr (command ++ newline)%string)]))
    by (split; reflexivity).
  rewrite (handle_input hst c k _ _ s Hrun Hk Hsp Hin).
  split; [reflexivity|].
  change (calls (emit (PtyWrite c (VStr (command ++ newline)%string)) s))
    with (calls s ++ [PtyWrite c (VStr (command ++ newline)%string)]).
  rewrite stdin_of_app. simpl. rewrite Nat.eqb_refl.
  now rewrite string_append_nil_r.
Qed.

(** A witness: the command ls on the first session. *)
Lemma page_command_reaches_terminal_witness :
  let hst := Host "linux" [] "/" in
  let s := handle hst (Connection "0.4fzyo82mvyr" VNull (SpawnOk 4242)) init in
  exists text,
    executeCommandInTerminal (Window (Some [(7, OPEN)]) (Some 7)) "ls"
    = TabSend 7 text /\
    stdin_of 0 (calls (handle hst (WsMessage 0 (Some text)) s))
    = ("ls" ++ newline)%string.
Proof.
  intros hst s.
  destruct (page_command_reaches_terminal hst (Window (Some [(7, OPEN)]) (Some 7))
              [(7, OPEN)] 7 "ls" 0%nat (Conn "4fzyo82mv" OPEN true false) s
              eq_refl eq_refl eq_refl eq_refl eq_refl eq_refl)
    as (text & E1 & _ & E3).
  exists text. split; [exact E1 | exact E3].
Defined.

(** ** The exit envelope when the signal is missing *)

(** X14.  When the exit listener gets no signal (a second argument that is
    absent or [undefined]) on an [OPEN] socket, the envelope it sends has
    the type exit and no signal property at all, not a signal of null. *)
Theorem exit_envelope_omits_missing_signal (hst : host) (c : nat) (k : conn)
    (args : list value) (s : state) :
  halted s = None ->
  conns s !! c = Some k ->
  spawned k = true ->
  readyState k = OPEN ->
  nth 1 args VUndefined = VUndefined ->
  exists fields,
    sent_to c (calls (handle hst (PtyExit c args) s))
    = sent_to c (calls s) ++ [VObj fields] /\
    JsMap.get fields "type" = Some (VStr "exit") /\
    JsMap.get fields "signal" = None.
Proof.
  intros Hrun Hk Hsp Hopen Hsig.
  destruct (handle_exit hst c k args s Hrun Hk Hsp) as (Hcalls & _).
  cbn zeta in Hcalls. rewrite Hopen, Hsig in Hcalls. simpl in Hcalls.
  rewrite Hcalls, sent_to_app. simpl. rewrite Nat.eqb_refl.
  destruct (nth 0 args VUndefined); eexists; (split; [reflexivity|]);
    split; reflexivity.
Qed.

(** A witness: the listener is called with the exit code only. *)
Lemma exit_envelope_omits_missing_signal_witness :
  let hst := Host "linux" [] "/" in
  let s := handle hst (Connection "0.4fzyo82mvyr" VNull (SpawnOk 4242)) init in
  exists fields,
    sent_to 0 (calls (handle hst (PtyExit 0 [VNum 1]) s))
    = sent_to 0 (calls s) ++ [VObj fields] /\
    JsMap.get fields "type" = Some (VStr "exit") /\
    JsMap.get fields "signal" = None.
Proof.
  intros hst s.
  apply (exit_envelope_omits_missing_signal hst 0%nat
           (Conn "4fzyo82mv" OPEN true false) [VNum 1] s);
    reflexivity.
Defined.

(** ** Sessions do not leak into each other *)

Lemma sent_to_none c ks :
  (forall payload, ~ In (WsSend c payload) ks) -> sent_to c ks = [].
Proof.
  induction ks as [|k ks IH]; intros Hno; [reflexivity|].
  assert (Hrest : sent_to c ks = []).
  { apply IH. intros payload Hin. apply (Hno payload). now right. }
  destruct k; try exact Hrest.
  unfold sent_to. simpl. destruct (Nat.eqb_spec c0 c) as [->|Hne].
  - exfalso. apply (Hno payload). now left.
  - exact Hrest.
Qed.

Lemma stdin_of_none h ks :
  (forall d, ~ In (PtyWrite h d) ks) -> stdin_of h ks = "".
Proof.
  induction ks as [|k ks IH]; intros Hno; [reflexivity|].
  assert (Hrest : stdin_of h ks = "").
  { apply IH. intros d Hin. apply (Hno d). now right. }
  destruct k; try exact Hrest.
  simpl. destruct data; try exact Hrest.
  destruct (Nat.eqb_spec h0 h) as [->|Hne]; [|exact Hrest].
  exfalso. apply (Hno (VStr s)). now left.
Qed.

Lemma count_kill_positive h ks :
  (0 < count_calls (is_kill h) ks)%nat -> In (PtyKill h) ks.
Proof.
  unfold count_calls. induction ks as [|k ks IH]; simpl; [lia|].
  destruct (is_kill h k) eqn:E.
  - intros _. left. destruct k; try discriminate E.
    simpl in E. apply Nat.eqb_eq in E. now subst.
  - intros H. right. now apply IH.
Qed.

Lemma emitted_in hst e s k :
  In k (calls (handle hst e s)) -> In k (calls s) \/ emitted_by hst e s k.
Proof.
  destruct (handle_emits hst e s) as (suffix & E & Hall).
  rewrite E. intros Hin. apply in_app_or in Hin as [Hin|Hin]; [now left|].
  right. rewrite List.Forall_forall in Hall. now apply Hall.
Qed.

(** Nothing is sent in a turn on a socket that is not [OPEN]. *)
Lemma no_send_step hst e s c k :
  conns s !! c = Some k -> is_open (readyState k) = false ->
  sent_to c (calls (handle hst e s)) = sent_to c (calls s).
Proof.
  intros Hk Hno.
  destruct (handle_emits hst e s) as (suffix & E & Hall).
  rewrite E, sent_to_app, (sent_to_none c suffix); [apply app_nil_r|].
  intros payload Hin. rewrite List.Forall_forall in Hall.
  apply Hall in Hin. simpl in Hin.
  destruct Hin as [(_ & _ & Hc) | (k' & Hk' & Hopen & _)].
  - apply lookup_lt_Some in Hk. lia.
  - rewrite Hk in Hk'. injection Hk' as <-. rewrite Hopen in Hno. discriminate.
Qed.

(** X8.  Once a socket has left [OPEN], the server never sends on it
    again, whatever happens later: in particular nothing is sent after
    'close' or 'error', and nothing after the server's own [ws.close()]. *)
Theorem no_send_once_not_open (hst : host) (c : nat) (k : conn)
    (events : list event) (s : state) :
  conns s !! c = Some k ->
  readyState k <> OPEN ->
  sent_to c (calls (run hst events s)) = sent_to c (calls s).
Proof.
  intros Hk Hno.
  assert (Hclosed : is_open (readyState k) = false)
    by (destruct (readyState k); simpl; congruence).
  clear Hno. revert s k Hk Hclosed.
  induction events as [|e es IH]; intros s k Hk Hclosed; [reflexivity|].
  rewrite run_cons.
  destruct (not_open_step hst e s c k Hk Hclosed) as (k' & Hk' & Hclosed').
  rewrite (IH _ k' Hk' Hclosed'). now apply (no_send_step hst e s c k).
Qed.

(** A witness: output that arrives after the client has gone. *)
Lemma no_send_once_not_open_witness :
  let hst := Host "linux" [] "/" in
  let s := run hst [Connection "0.4fzyo82mvyr" VNull (SpawnOk 4242); WsClosed 0] init in
  sent_to 0 (calls (run hst [PtyData 0 "late"; PtyExit 0 [VNum 0; VNull]] s))
  = sent_to 0 (calls s).
Proof.
  intros hst s.
  apply (no_send_once_not_open hst 0%nat (Conn "4fzyo82mv" CLOSED true false)).
  - reflexivity.
  - discriminate.
Defined.

(** X9.  What a client receives comes from its own terminal: events other
    than the data and the exit of the terminal of an existing connection
    send nothing on that connection. *)
Theorem sent_only_by_own_terminal (hst : host) (c : nat) (events : list event)
    (s : state) :
  (c < length (conns s))%nat ->
  Forall (fun e => is_terminal_event c e = false) events ->
  sent_to c (calls (run hst events s)) = sent_to c (calls s).
Proof.
  intros Hc Hall. revert s Hc.
  induction Hall as [|e es He Hall IH]; intros s Hc; [reflexivity|].
  rewrite run_cons, IH by (pose proof (conns_length_step hst e s); lia).
  destruct (handle_emits hst e s) as (suffix & E & Hem).
  rewrite E, sent_to_app, (sent_to_none c suffix); [apply app_nil_r|].
  intros payload Hin. rewrite List.Forall_forall in Hem.
  apply Hem in Hin. simpl in Hin.
  destruct Hin as [(_ & _ & Hnew) | (k & _ & _ & [(data & -> & _) | (args & ->)])].
  - lia.
  - simpl in He. now rewrite Nat.eqb_refl in He.
  - simpl in He. now rewrite Nat.eqb_refl in He.
Qed.

(** A witness: the output and the exit of a second session. *)
Lemma sent_only_by_own_terminal_witness :
  let hst := Host "linux" [] "/" in
  let s := run hst [Connection "0.4fzyo82mvyr" VNull (SpawnOk 4242);
                    Connection "0.k2j5x0q9wab" VNull (SpawnOk 4243)] init in
  sent_to 0 (calls (run hst [PtyData 1 "secret"; PtyExit 1 [VNum 0; VNull];
                             WsClosed 1] s))
  = sent_to 0 (calls s).
Proof.
  intros hst s.
  apply (sent_only_by_own_terminal hst 0%nat).
  - simpl. lia.
  - repeat constructor.
Defined.

(** X10.  What a shell reads comes from its own client: events other than
    an input envelope on the connection of a terminal write nothing to that
    terminal. *)
Theorem stdin_only_from_own_input (hst : host) (h : nat) (events : list event)
    (s : state) :
  Forall (fun e => is_input_for h e = false) events ->
  stdin_of h (calls (run hst events s)) = stdin_of h (calls s).
Proof.
  intros Hall. revert s.
  induction Hall as [|e es He Hall IH]; intros s; [reflexivity|].
  rewrite run_cons, IH.
  destruct (handle_emits hst e s) as (suffix & E & Hem).
  rewrite E, stdin_of_app, (stdin_of_none h suffix);
    [apply string_append_nil_r|].
  intros d Hin. rewrite List.Forall_forall in Hem.
  apply Hem in Hin. simpl in Hin.
  destruct Hin as (_ & data & -> & Hty & _).
  simpl in He. rewrite Nat.eqb_refl, Hty in He. simpl in He. discriminate He.
Qed.

(** A witness: the input of a second client, and a resize of the first. *)
Lemma stdin_only_from_own_input_witness :
  let hst := Host "linux" [] "/" in
  let s := run hst [Connection "0.4fzyo82mvyr" VNull (SpawnOk 4242);
                    Connection "0.k2j5x0q9wab" VNull (SpawnOk 4243)] init in
  stdin_of 0 (calls (run hst
    [WsMessage 1 (Some (VObj [("type", VStr "input"); ("data", VStr "rm -rf /")]));
     WsMessage 0 (Some (VObj [("type", VStr "resize"); ("cols", VNum 90);
                              ("rows", VNum 20)]))] s))
  = stdin_of 0 (calls s).
Proof.
  intros hst s.
  apply (stdin_only_from_own_input hst 0%nat).
  repeat constructor.
Defined.

(** ** The entries of the map and the kills *)

Lemma In_get {V} (m : list (string * V)) k v :
  NoDup (JsMap.keys m) -> In (k, v) m -> JsMap.get m k = Some v.
Proof.
  induction m as [|[k0 v0] m IH]; simpl; [contradiction|].
  intros Hnd. apply NoDup_cons in Hnd as [Hnotin Hnd].
  intros [[= -> ->] | Hin].
  - now rewrite String.eqb_refl.
  - destruct (String.eqb_spec k0 k) as [->|Hne]; [|now apply IH].
    exfalso. apply Hnotin. rewrite list_elem_of_In.
    change k with (fst (k, v)). now apply in_map.
Qed.

Lemma NoDup_values {V} (m : list (string * V)) :
  NoDup (JsMap.keys m) ->
  (forall k k' v, In (k, v) m -> In (k', v) m -> k = k') ->
  NoDup (map snd m).
Proof.
  induction m as [|[k0 v0] m IH]; simpl; intros Hnd Hinj; [apply NoDup_nil_2|].
  apply NoDup_cons in Hnd as [Hnotin Hnd]. apply NoDup_cons. split.
  - rewrite list_elem_of_In. intros Hin.
    apply in_map_iff in Hin as ([k1 v1] & Hv & Hin). simpl in Hv. subst v1.
    assert (k0 = k1) by (apply (Hinj k0 k1 v0); [now left | now right]).
    subst k1. apply Hnotin. rewrite list_elem_of_In.
    change k0 with (fst (k0, v0)). now apply in_map.
  - apply IH; [exact Hnd|]. intros k k' v H1 H2.
    apply (Hinj k k' v); now right.
Qed.

(** X6.  In every state the server reaches, no id is twice in [terminals]
    and no terminal is: each entry is the terminal of one connection, under
    that connection's id, with a successful spawn, no exit reported and a
    socket that did not report 'close'. *)
Theorem terminals_entries_unique (hst : host) (s : state) :
  reachable hst s ->
  NoDup (JsMap.keys (terminals s)) /\
  NoDup (map snd (terminals s)) /\
  (forall id h, In (id, h) (terminals s) ->
     exists k, conns s !! h = Some k /\ terminalId k = id /\
               spawned k = true /\ exited k = false /\ readyState k <> CLOSED).
Proof.
  intros Hreach.
  pose proof (registry_keys_distinct hst s Hreach) as Hkeys.
  pose proof (registry_sound_reachable hst s Hreach) as Hsound.
  assert (Hentry : forall id h, In (id, h) (terminals s) ->
     exists k, conns s !! h = Some k /\ terminalId k = id /\
               spawned k = true /\ exited k = false /\ readyState k <> CLOSED).
  { intros id h Hin. apply Hsound. now apply In_get. }
  split; [exact Hkeys|]. split; [|exact Hentry].
  apply NoDup_values; [exact Hkeys|].
  intros id id' h H1 H2.
  destruct (Hentry id h H1) as (k & Hk & <- & _).
  destruct (Hentry id' h H2) as (k' & Hk' & <- & _).
  congruence.
Qed.

(** A witness: two sessions, then the exit of the first. *)
Lemma terminals_entries_unique_witness :
  let hst := Host "linux" [] "/" in
  let s := run hst [Connection "0.4fzyo82mvyr" VNull (SpawnOk 4242);
                    Connection "0.k2j5x0q9wab" VNull (SpawnOk 4243);
                    PtyExit 0 [VNum 0; VNull]] init in
  NoDup (JsMap.keys (terminals s)) /\ NoDup (map snd (terminals s)).
Proof.
  intros hst s.
  destruct (terminals_entries_unique hst s) as (E1 & E2 & _).
  - apply (reachable_run hst _ init), reachable_init.
  - split; [exact E1 | exact E2].
Defined.

(** X7.  [kill] is called only on a terminal that is in [terminals] at that
    moment: in every state the server reaches, a turn that calls [kill] on a
    terminal finds it registered under the id of its connection, spawned and
    with no exit reported.  A terminal is never killed after its exit. *)
Theorem kill_only_registered_terminal (hst : host) (e : event) (s : state)
    (h : nat) :
  reachable hst s ->
  (count_calls (is_kill h) (calls s)
   < count_calls (is_kill h) (calls (handle hst e s)))%nat ->
  exists k, conns s !! h = Some k /\ spawned k = true /\ exited k = false /\
            JsMap.get (terminals s) (terminalId k) = Some h.
Proof.
  intros Hreach Hmore.
  pose proof (registry_keys_distinct hst s Hreach) as Hkeys.
  pose proof (registry_sound_reachable hst s Hreach) as Hsound.
  destruct (handle_emits hst e s) as (suffix & E & Hem).
  rewrite E, count_calls_app in Hmore.
  assert (Hin : In (PtyKill h) suffix) by (apply count_kill_positive; lia).
  rewrite List.Forall_forall in Hem. apply Hem in Hin. simpl in Hin.
  assert (Hreg : exists id, JsMap.get (terminals s) id = Some h).
  { destruct Hin as [(_ & id & Hin) | (c & k0 & _ & _ & Hget)].
    - exists id. now apply In_get.
    - now exists (terminalId k0). }
  destruct Hreg as (id & Hget).
  destruct (Hsound id h Hget) as (k & Hk & <- & Hsp & Hex & _).
  now exists k.
Qed.

(** A witness: the client of a live session disconnects. *)
Lemma kill_only_registered_terminal_witness :
  let hst := Host "linux" [] "/" in
  let s := handle hst (Connection "0.4fzyo82mvyr" VNull (SpawnOk 4242)) init in
  exists k, conns s !! 0%nat = Some k /\ spawned k = true /\ exited k = false /\
            JsMap.get (terminals s) (terminalId k) = Some 0%nat.
Proof.
  intros hst s.
  apply (kill_only_registered_terminal hst (WsClosed 0) s 0%nat).
  - apply (reachable_step hst init), reachable_init.
  - vm_compute. lia.
Defined.

(** ** Every spawn *)

Lemma select_shell_not_empty hst : select_shell hst <> "".
Proof.
  unfold select_shell. destruct (String.eqb (platform hst) "win32");
    [discriminate|].
  destruct (JsMap.get (process_env hst) "SHELL") as [sh|]; [|discriminate].
  destruct (String.eqb_spec sh ""); [discriminate | assumption].
Qed.

(** X4.  Every [pty.spawn] the server ever makes names a shell that is not
    the empty text (powershell.exe on win32; elsewhere the host's SHELL, or
    /bin/bash when SHELL is unset or empty), passes no arguments, asks for
    80 columns and 30 rows under the name xterm-color, and starts in the
    working directory of the server. *)
Theorem every_spawn_well_formed (hst : host) (s : state) (h : nat)
    (file : string) (args : list string) (opts : spawn_options)
    (res : spawn_result) :
  reachable hst s ->
  In (PtySpawn h file args opts res) (calls s) ->
  file <> "" /\
  (platform hst = "win32" -> file = "powershell.exe") /\
  (platform hst <> "win32" ->
     match JsMap.get (process_env hst) "SHELL" with
     | Some sh => if String.eqb sh "" then file = "/bin/bash" else file = sh
     | None => file = "/bin/bash"
     end) /\
  args = [] /\
  opt_name opts = "xterm-color" /\ opt_cols opts = 80 /\ opt_rows opts = 30 /\
  opt_cwd opts = process_cwd hst.
Proof.
  intros Hreach. induction Hreach as [|s e Hreach IH]; [intros []|].
  intros Hin. apply emitted_in in Hin as [Hin | Hem]; [now apply IH|].
  simpl in Hem. destruct Hem as (_ & _ & _ & -> & -> & ->).
  split; [apply select_shell_not_empty|].
  unfold select_shell. repeat split.
  - intros ->. reflexivity.
  - intros Hne. apply String.eqb_neq in Hne. rewrite Hne.
    destruct (JsMap.get (process_env hst) "SHELL") as [sh|]; [|reflexivity].
    destruct (String.eqb sh ""); reflexivity.
Qed.

(** A witness: a host whose SHELL is empty. *)
Lemma every_spawn_well_formed_witness :
  let hst := Host "darwin" [("SHELL", "")] "/Users/me" in
  let s := handle hst (Connection "0.4fzyo82mvyr" VNull (SpawnOk 4242)) init in
  In (PtySpawn 0 "/bin/bash" [] (spawn_options_of hst) (SpawnOk 4242)) (calls s) /\
  "/bin/bash" <> "" /\
  opt_cwd (spawn_options_of hst) = "/Users/me".
Proof.
  intros hst s.
  assert (Hin : In (PtySpawn 0 "/bin/bash" [] (spawn_options_of hst) (SpawnOk 4242))
                   (calls s)) by (simpl; tauto).
  split; [exact Hin|].
  destruct (every_spawn_well_formed hst s 0%nat "/bin/bash" [] (spawn_options_of hst)
              (SpawnOk 4242) (reachable_step hst init _ (reachable_init hst)) Hin)
    as (Hne & _ & _ & _ & _ & _ & _ & Hcwd).
  split; [exact Hne | exact Hcwd].
Defined.

(** ** The server stays up *)

(** Only the SIGINT listener touches the listener of the server. *)
Lemma listener_untouched hst e s :
  is_sigint e = false ->
  wss_callbacks (handle hst e s) = wss_callbacks s /\
  wss_closing (handle hst e s) = wss_closing s.
Proof.
  intros Hns. unfold handle.
  destruct (halted s) eqn:Hrun; [now split|].
  destruct e as [rnd36 req res|c0|c0 parsed|c0|c0|h0 data|h0 args| |];
    try discriminate Hns.
  - destruct (wss_closing s) eqn:Hl; [now split|].
    unfold on_connection. destruct res; simpl; now split.
  - now split.
  - destruct (conns s !! c0) as [k0|]; [|now split].
    destruct (spawned k0); [|now split].
    unfold on_message.
    repeat match goal with
           | |- context [match ?x with _ => _ end] => destruct x
           end; now split.
  - destruct (conns s !! c0) as [k0|]; [|now split].
    unfold on_close, release. simpl.
    destruct (JsMap.get (terminals s) (terminalId k0)); now split.
  - destruct (conns s !! c0) as [k0|]; [|now split].
    unfold on_error, release. simpl.
    destruct (JsMap.get (terminals s) (terminalId k0)); now split.
  - destruct (conns s !! h0) as [k0|]; [|now split].
    destruct (spawned k0); [|now split].
    unfold on_data. destruct (is_open (readyState k0)); now split.
  - destruct (conns s !! h0) as [k0|]; [|now split].
    destruct (spawned k0); [|now split].
    unfold on_exit. destruct (is_open (readyState k0)); now split.
  - destruct (wss_callbacks s) eqn:Ecb; [now split|].
    unfold on_wss_closed. simpl. now split.
Qed.

(** X13.  Without SIGINT the server never ends its process and never
    closes its listener, whatever the clients and the terminals do: spawn
    failures, malformed messages, socket errors and exits included. *)
Theorem never_exits_without_sigint (hst : host) (events : list event) :
  Forall (fun e => is_sigint e = false) events ->
  let s := run hst events init in
  halted s = None /\
  wss_closing s = false /\
  (forall code, ~ In (ProcessExit code) (calls s)) /\
  ~ In WssClose (calls s).
Proof.
  intros Hall. cbn zeta.
  assert (Hgen : forall s,
    halted s = None -> wss_callbacks s = 0%nat -> wss_closing s = false ->
    (forall code, ~ In (ProcessExit code) (calls s)) ->
    ~ In WssClose (calls s) ->
    halted (run hst events s) = None /\
    wss_closing (run hst events s) = false /\
    (forall code, ~ In (ProcessExit code) (calls (run hst events s))) /\
    ~ In WssClose (calls (run hst events s))).
  { induction Hall as [|e es He Hall IH]; intros s Hrun Hcb Hl Hpe Hwc;
      [now repeat split|].
    rewrite run_cons.
    destruct (listener_untouched hst e s He) as [Ecb El].
    apply IH.
    - destruct (halted (handle hst e s)) eqn:Hh; [|reflexivity].
      destruct (halted_only_by_listener hst e s Hrun) as [_ Hne];
        [congruence | contradiction].
    - congruence.
    - congruence.
    - intros code Hin.
      destruct (emitted_in hst e s _ Hin) as [Hold | Hem];
        [now apply (Hpe code)|].
      simpl in Hem. destruct Hem as [-> _].
      unfold handle in Hin. rewrite Hrun, Hcb in Hin.
      now apply (Hpe code).
    - intros Hin. apply emitted_in in Hin as [Hin | Hem]; [now apply Hwc|].
      simpl in Hem. subst e. discriminate He. }
  apply Hgen; try reflexivity; intros; simpl; tauto.
Qed.

(** A witness: a spawn failure, a socket error and a stray listener
    callback. *)
Lemma never_exits_without_sigint_witness :
  let hst := Host "linux" [] "/" in
  halted (run hst [Connection "0.4fzyo82mvyr" VNull (SpawnThrows "ENOENT");
                   WsError 0; WsMessage 0 None; WssClosed] init) = None.
Proof.
  intros hst.
  apply (never_exits_without_sigint hst). repeat constructor.
Defined.

(** ** The first envelope of a session *)

Lemma targets_exist_step hst e s :
  reachable hst s -> targets_exist s -> targets_exist (handle hst e s).
Proof.
  intros Hreach Hinv. unfold targets_exist.
  pose proof (conns_length_step hst e s) as Hlen.
  destruct (handle_emits hst e s) as (suffix & E & Hem).
  rewrite E. apply Forall_app. split.
  - eapply List.Forall_impl; [|exact Hinv].
    intros k. simpl. destruct (call_target k); [lia | trivial].
  - assert (Hnew : forall rnd36 req res, e = Connection rnd36 req res ->
              wss_closing s = false -> suffix <> [] ->
              (length (conns s) < length (conns (handle hst e s)))%nat).
    { intros rnd36 req res -> Hl Hne.
      destruct (halted s) eqn:Hrun.
      - exfalso. apply Hne. unfold handle in E. rewrite Hrun in E.
        apply (app_inv_head (calls s)). now rewrite app_nil_r.
      - destruct res as [pid|message].
        + rewrite (proj2 (handle_connection_ok hst rnd36 req pid s Hrun Hl)).
          rewrite length_app. simpl. lia.
        + rewrite (proj2 (handle_connection_fail hst rnd36 req message s Hrun Hl)).
          rewrite length_app. simpl. lia. }
    assert (Hold : forall h k, conns s !! h = Some k ->
              (h < length (conns (handle hst e s)))%nat).
    { intros h k Hk. apply lookup_lt_Some in Hk. lia. }
    pose proof (registry_keys_distinct hst s Hreach) as Hkeys.
    pose proof (registry_sound_reachable hst s Hreach) as Hsound.
    rewrite List.Forall_forall in Hem. apply List.Forall_forall.
    intros k Hin. pose proof (Hem k Hin) as Hk.
    assert (Hne : suffix <> []) by (intros ->; contradiction).
    destruct k; simpl in Hk |- *; try exact I.
    + destruct Hk as ((rnd36 & req & ->) & Hl & -> & _). eauto.
    + destruct Hk as ((k & Hk & _) & _). eauto.
    + destruct Hk as ((k & Hk & _) & _). eauto.
    + destruct Hk as [(_ & id & Hid) | (c & k0 & _ & _ & Hget)].
      * apply In_get in Hid; [|exact Hkeys].
        destruct (Hsound id h Hid) as (k & Hk & _). eauto.
      * destruct (Hsound _ h Hget) as (k & Hk & _). eauto.
    + destruct Hk as [((rnd36 & req & res & ->) & Hl & ->) | (k & Hk & _)]; eauto.
    + destruct Hk as [((rnd36 & req & message & ->) & Hl & ->) | (k & args & Hk & _)];
        eauto.
Qed.

Lemma targets_exist_reachable hst s : reachable hst s -> targets_exist s.
Proof.
  induction 1 as [|s e Hreach IH]; [apply List.Forall_nil|].
  now apply targets_exist_step.
Qed.

(** X2.  A connection whose spawn succeeds gets exactly one envelope, the
    first on its socket: connected, with the id, the shell and the pid.
    From then on [terminals] maps that id to the new terminal (taking the
    place of any earlier holder of the id) and every other id as before. *)
Theorem connection_greets_and_registers (hst : host) (rnd36 : string)
    (req : value) (pid : Z) (s : state) :
  reachable hst s ->
  halted s = None ->
  wss_closing s = false ->
  let c := length (conns s) in
  let id := generateId rnd36 in
  let s' := handle hst (Connection rnd36 req (SpawnOk pid)) s in
  sent_to c (calls s')
  = [VObj [("type", VStr "connected"); ("terminalId", VStr id);
           ("shell", VStr (select_shell hst)); ("pid", VNum pid)]] /\
  JsMap.get (terminals s') id = Some c /\
  (forall id', id' <> id ->
               JsMap.get (terminals s') id' = JsMap.get (terminals s) id') /\
  conns s' !! c = Some (Conn id OPEN true false).
Proof.
  intros Hreach Hrun Hl c id s'.
  destruct (handle_connection_ok hst rnd36 req pid s Hrun Hl) as [ET EC].
  fold s' in ET, EC. fold id in ET, EC. fold c in ET.
  assert (Hfresh : sent_to c (calls s) = []).
  { apply sent_to_none. intros payload Hin.
    pose proof (targets_exist_reachable hst s Hreach) as Hinv.
    unfold targets_exist in Hinv. rewrite List.Forall_forall in Hinv.
    apply Hinv in Hin. simpl in Hin. subst c. lia. }
  repeat split.
  - subst s'. unfold handle, on_connection. rewrite Hrun, Hl. simpl.
    rewrite !sent_to_app, Hfresh. simpl. fold c. now rewrite Nat.eqb_refl.
  - rewrite ET. apply JsMapFacts.get_set_eq.
  - intros id' Hne. rewrite ET. apply JsMapFacts.get_set_ne. congruence.
  - rewrite EC, lookup_app_r by (subst c; lia).
    subst c. now rewrite Nat.sub_diag.
Qed.

(** A witness: the first connection of a fresh server. *)
Lemma connection_greets_and_registers_witness :
  let hst := Host "linux" [("SHELL", "/bin/zsh")] "/" in
  let s' := handle hst (Connection "0.4fzyo82mvyr" VNull (SpawnOk 4242)) init in
  sent_to 0 (calls s')
  = [VObj [("type", VStr "connected"); ("terminalId", VStr "4fzyo82mv");
           ("shell", VStr "/bin/zsh"); ("pid", VNum 4242)]].
Proof.
  intros hst s'.
  exact (proj1 (connection_greets_and_registers hst "0.4fzyo82mvyr" VNull 4242
                  init (reachable_init hst) eq_refl eq_refl)).
Defined.

(** ** Resizing *)

(** X11.  A resize envelope on a session makes the script call
    [terminal.resize] exactly once, with the cols and rows of the envelope
    as they are read ([undefined] for a missing one, zero and negative
    numbers included), without any check of its own.  One console line
    follows, the resize or an error; the map and the connections are as
    before. *)
Theorem resize_forwarded_unchecked (hst : host) (c : nat) (k : conn)
    (data cols rows : value) (s : state) :
  halted s = None ->
  conns s !! c = Some k ->
  spawned k = true ->
  get_prop data "type" = Some (VStr "resize") ->
  get_prop data "cols" = Some cols ->
  get_prop data "rows" = Some rows ->
  let s' := handle hst (WsMessage c (Some data)) s in
  (exists line,
      calls s' = calls s ++ [PtyResize c cols rows; Console line] /\
      (line = LogResized cols rows \/ line = ErrorMessage)) /\
  (forall fields, data = VObj fields ->
     (JsMap.get fields "cols" = None -> cols = VUndefined) /\
     (JsMap.get fields "rows" = None -> rows = VUndefined)) /\
  terminals s' = terminals s /\
  conns s' = conns s.
Proof.
  intros Hrun Hk Hsp Hty Hc Hr s'.
  assert (Hs' : exists line,
            s' = console line (emit (PtyResize c cols rows) s) /\
            (line = LogResized cols rows \/ line = ErrorMessage)).
  { subst s'. unfold handle. rewrite Hrun, Hk, Hsp. unfold on_message.
    rewrite Hty, Hc, Hr. simpl.
    destruct (resize_accepts cols rows); eexists; split; eauto. }
  destruct Hs' as (line & Hs' & Hline).
  split; [|split; [|now rewrite Hs']].
  - exists line. split; [|exact Hline].
    rewrite Hs'. simpl. now rewrite <- app_assoc.
  - intros fields ->. simpl in Hc, Hr. split; intros Hnone.
    + rewrite Hnone in Hc. now injection Hc.
    + rewrite Hnone in Hr. now injection Hr.
Qed.

(** A witness: zero columns and no rows are passed on as they are. *)
Lemma resize_forwarded_unchecked_witness :
  let hst := Host "linux" [] "/" in
  let s := handle hst (Connection "0.4fzyo82mvyr" VNull (SpawnOk 4242)) init in
  let data := VObj [("type", VStr "resize"); ("cols", VNum 0)] in
  exists line,
    calls (handle hst (WsMessage 0 (Some data)) s)
    = calls s ++ [PtyResize 0 (VNum 0) VUndefined; Console line].
Proof.
  intros hst s data.
  destruct (resize_forwarded_unchecked hst 0%nat
              (Conn "4fzyo82mv" OPEN true false) data (VNum 0) VUndefined s
              eq_refl eq_refl eq_refl eq_refl eq_refl eq_refl)
    as ((line & Hcalls & _) & _).
  now exists line.
Defined.

(** ** What a message cannot do, and what is over stays over *)

Lemma count_kill_none h ks :
  ~ In (PtyKill h) ks -> count_calls (is_kill h) ks = 0%nat.
Proof.
  intros Hno. destruct (count_calls (is_kill h) ks) eqn:E; [reflexivity|].
  exfalso. apply Hno, count_kill_positive. lia.
Qed.

(** X18.  No message of a client, whatever its text, ends a session or
    makes the server speak: the map, the connections and the process stay as
    they are, nothing is sent on any socket and no terminal is killed.  The
    only calls a message can cause are [write] and [resize] on the terminal
    of its own connection, and console lines. *)
Theorem message_never_ends_session (hst : host) (c : nat)
    (parsed : option value) (s : state) :
  let s' := handle hst (WsMessage c parsed) s in
  terminals s' = terminals s /\
  conns s' = conns s /\
  halted s' = halted s /\
  (forall c', sent_to c' (calls s') = sent_to c' (calls s)) /\
  (forall h, count_calls (is_kill h) (calls s')
             = count_calls (is_kill h) (calls s)) /\
  (forall k, In k (calls s') -> In k (calls s) \/
             match k with
             | Console _ => True
             | PtyWrite h _ | PtyResize h _ _ => h = c
             | _ => False
             end).
Proof.
  intros s'.
  assert (Hframe : terminals s' = terminals s /\ conns s' = conns s /\
                   halted s' = halted s).
  { subst s'. unfold handle. destruct (halted s) eqn:Hrun; [now rewrite Hrun|].
    destruct (conns s !! c) as [k|]; [|now rewrite Hrun].
    destruct (spawned k); [|now rewrite Hrun].
    destruct (on_message_frame c parsed s) as (A & B & C).
    now rewrite A, B, C. }
  destruct Hframe as (A & B & C).
  destruct (handle_emits hst (WsMessage c parsed) s) as (suffix & E & Hem).
  fold s' in E. rewrite List.Forall_forall in Hem.
  repeat split; try assumption.
  - intros c'. rewrite E, sent_to_app, (sent_to_none c' suffix);
      [apply app_nil_r|].
    intros payload Hin. apply Hem in Hin. simpl in Hin.
    destruct Hin as [((? & ? & ? & Heq) & _) | (? & _ & _ & [(? & Heq & _) | (? & Heq)])];
      discriminate Heq.
  - intros h. rewrite E, count_calls_app, (count_kill_none h suffix); [lia|].
    intros Hin. apply Hem in Hin. simpl in Hin.
    destruct Hin as [(Heq & _) | (? & ? & [Heq | Heq] & _)]; discriminate Heq.
  - intros k Hin. rewrite E in Hin. apply in_app_or in Hin as [Hin | Hin];
      [now left|].
    right. apply Hem in Hin. destruct k; simpl in Hin |- *; try exact I.
    + destruct Hin as ((? & ? & Heq) & _). discriminate Heq.
    + destruct Hin as (_ & ? & Heq & _). now injection Heq.
    + destruct Hin as (_ & ? & Heq & _). now injection Heq.
    + destruct Hin as [(Heq & _) | (? & ? & [Heq | Heq] & _)]; discriminate Heq.
    + destruct Hin as [((? & ? & ? & Heq) & _) | (? & _ & _ & [(? & Heq & _) | (? & Heq)])];
        discriminate Heq.
    + destruct Hin as [((? & ? & ? & Heq) & _) | (? & ? & _ & _ & Heq)];
        discriminate Heq.
    + discriminate Hin.
    + destruct Hin as [Heq _]. discriminate Heq.
Qed.

(** A witness: text that is no JSON, on a live session. *)
Lemma message_never_ends_session_witness :
  let hst := Host "linux" [] "/" in
  let s := handle hst (Connection "0.4fzyo82mvyr" VNull (SpawnOk 4242)) init in
  terminals (handle hst (WsMessage 0 None) s) = [("4fzyo82mv", 0%nat)].
Proof.
  intros hst s.
  rewrite (proj1 (message_never_ends_session hst 0%nat None s)). reflexivity.
Defined.

(** A session that is over keeps being over: no successful spawn, or an
    exit reported, or a socket that reported 'close'. *)
Lemma over_step hst e s c k :
  conns s !! c = Some k ->
  spawned k = false \/ exited k = true \/ readyState k = CLOSED ->
  exists k', conns (handle hst e s) !! c = Some k' /\
             (spawned k' = false \/ exited k' = true \/ readyState k' = CLOSED).
Proof.
  intros Hk Hover.
  destruct (conn_step_shape hst e s c k Hk) as (k' & Hk' & Hshape).
  exists k'. split; [exact Hk'|].
  assert (Hsc : forall x, spawned (start_closing x) = spawned x /\
                          exited (start_closing x) = exited x /\
                          (readyState x = CLOSED ->
                           readyState (start_closing x) = CLOSED)).
  { intros x. unfold start_closing. destruct (readyState x) eqn:Ex; simpl;
      rewrite ?Ex; repeat split; congruence. }
  destruct Hshape as [-> | [-> | [-> | [-> | ->]]]].
  - exact Hover.
  - destruct (Hsc k) as (A & B & C). rewrite A, B.
    destruct Hover as [H | [H | H]]; auto.
  - simpl. auto.
  - simpl. auto.
  - destruct (Hsc (set_exited k)) as (A & B & C). rewrite B. simpl. auto.
Qed.

(** X19.  A session that is over never comes back into [terminals]: once
    its spawn has failed, its exit was reported or its socket reported
    'close', no later event maps any id to its terminal. *)
Theorem ended_session_stays_out (hst : host) (c : nat) (k : conn)
    (events : list event) (id : string) (s : state) :
  reachable hst s ->
  conns s !! c = Some k ->
  spawned k = false \/ exited k = true \/ readyState k = CLOSED ->
  JsMap.get (terminals (run hst events s)) id <> Some c.
Proof.
  intros Hreach Hk Hover Hget.
  assert (Hlater : exists k', conns (run hst events s) !! c = Some k' /\
            (spawned k' = false \/ exited k' = true \/ readyState k' = CLOSED)).
  { clear Hget Hreach. revert s k Hk Hover.
    induction events as [|e es IH]; intros s k Hk Hover; [now exists k|].
    rewrite run_cons.
    destruct (over_step hst e s c k Hk Hover) as (k1 & Hk1 & Hover1).
    now apply (IH _ k1). }
  destruct Hlater as (k' & Hk' & Hover').
  pose proof (reachable_run hst events s Hreach) as Hr.
  destruct (registry_sound_reachable hst _ Hr id c Hget)
    as (k1 & Hk1 & _ & Hsp & Hex & Hrs).
  rewrite Hk' in Hk1. injection Hk1 as <-.
  destruct Hover' as [H | [H | H]]; congruence.
Qed.

(** A witness: after the exit of the first session, a second client gets
    the same id; the map then holds the second terminal, not the first. *)
Lemma ended_session_stays_out_witness :
  let hst := Host "linux" [] "/" in
  let s := run hst [Connection "0.4fzyo82mvyr" VNull (SpawnOk 4242);
                    PtyExit 0 [VNum 0; VNull]] init in
  JsMap.get (terminals (run hst [Connection "0.4fzyo82mvyr" VNull (SpawnOk 4243)] s))
            "4fzyo82mv" <> Some 0%nat.
Proof.
  intros hst s.
  apply (ended_session_stays_out hst 0%nat (Conn "4fzyo82mv" CLOSING true true)).
  - apply (reachable_run hst _ init), reachable_init.
  - reflexivity.
  - right. left. reflexivity.
Defined.

(** X20.  While the ids are pairwise distinct, the socket of a connection
    whose spawn failed can close or fail without harm: its listener finds no
    entry under its id, kills no terminal and leaves the map as it is. *)
Theorem failed_connection_end_is_harmless (hst : host) (c : nat) (k : conn)
    (e : event) (s : state) :
  reachable hst s ->
  NoDup (ids s) ->
  conns s !! c = Some k ->
  spawned k = false ->
  e = WsClosed c \/ e = WsError c ->
  let s' := handle hst e s in
  terminals s' = terminals s /\
  effects (calls s') = effects (calls s).
Proof.
  intros Hreach Hnd Hk Hsp He s'.
  assert (Hnone : JsMap.get (terminals s) (terminalId k) = None).
  { destruct (JsMap.get (terminals s) (terminalId k)) as [h|] eqn:Hget;
      [|reflexivity].
    destruct (registry_sound_reachable hst s Hreach _ _ Hget)
      as (k' & Hk' & Hid & Hsp' & _).
    assert (c = h) by (apply (ids_injective (conns s) c h k k' Hnd); auto).
    subst h. rewrite Hk in Hk'. injection Hk' as <-. congruence. }
  destruct (halted s) eqn:Hrun.
  - subst s'. unfold handle. now rewrite Hrun.
  - destruct (handle_transport_end hst c k e s Hrun Hk He)
      as ((line & Hcalls) & Hterm & _).
    fold s' in Hcalls, Hterm. rewrite Hnone in Hcalls. split.
    + rewrite Hterm. now apply delete_absent.
    + rewrite Hcalls, !effects_app. simpl. now rewrite app_nil_r.
Qed.

(** A witness: a failed connection beside a live session. *)
Lemma failed_connection_end_is_harmless_witness :
  let hst := Host "linux" [] "/" in
  let s := run hst [Connection "0.4fzyo82mvyr" VNull (SpawnOk 4242);
                    Connection "0.k2j5x0q9wab" VNull (SpawnThrows "ENOENT")] init in
  terminals (handle hst (WsClosed 1) s) = terminals s.
Proof.
  intros hst s.
  refine (proj1 (failed_connection_end_is_harmless hst 1%nat
                   (Conn "k2j5x0q9w" CLOSING false false) (WsClosed 1) s
                   _ _ eq_refl eq_refl (or_introl eq_refl))).
  - apply (reachable_run hst _ init), reachable_init.
  - cbn. apply NoDup_cons. split; [|apply NoDup_singleton].
    intros Hin. apply list_elem_of_singleton in Hin. discriminate Hin.
Defined.
